(** * aoe-discord-bot: the match notifier of [src/main.py]

    A shallow embedding of the notifier (team assembly, match
    classification, message formatting, replay-link resolution and the
    polling loop) together with the properties its specification states.

    Conventions.
    - Python [int] is [Z]; Python [str] is [string], a sequence of bytes:
      [lower] and [capitalize] change ASCII letters only.
    - Python lists are [list]; the one [dict] of the program is a constant
      table, kept as an association list with distinct keys.
    - Effects are explicit.  Every effectful function takes the history of
      the run so far (a [trace], newest event first) and returns the
      extended history; the outside world (network, webhook, match-history
      client) answers as a function of that history.
    - A Python exception is a value [Raise e]. *)

From Stdlib Require Import ZArith List String Ascii Bool Lia.
From Stdlib Require Import Permutation Sorted DecimalString.
Import ListNotations.

Local Open Scope string_scope.
Local Open Scope Z_scope.

(* ================================================================= *)
(** ** Strings *)

Module Str.

Definition is_upper (c : ascii) : bool :=
  let n := nat_of_ascii c in (Nat.leb 65 n && Nat.leb n 90)%bool.

Definition is_lower (c : ascii) : bool :=
  let n := nat_of_ascii c in (Nat.leb 97 n && Nat.leb n 122)%bool.

Definition lower_char (c : ascii) : ascii :=
  if is_upper c then ascii_of_nat (nat_of_ascii c + 32) else c.

Definition upper_char (c : ascii) : ascii :=
  if is_lower c then ascii_of_nat (nat_of_ascii c - 32) else c.

(** [s.lower()] *)
Fixpoint lower (s : string) : string :=
  match s with
  | EmptyString => EmptyString
  | String c r => String (lower_char c) (lower r)
  end.

(** [s.capitalize()]: first character upper-cased, the rest lower-cased. *)
Definition capitalize (s : string) : string :=
  match s with
  | EmptyString => EmptyString
  | String c r => String (upper_char c) (lower r)
  end.

(** [sub in s] *)
Fixpoint contains (sub s : string) : bool :=
  (String.prefix sub s
   || match s with
      | EmptyString => false
      | String _ r => contains sub r
      end)%bool.

(** [s.split(sep)[0]] for a one-character separator. *)
Fixpoint before (sep : ascii) (s : string) : string :=
  match s with
  | EmptyString => EmptyString
  | String c r => if Ascii.eqb c sep then EmptyString
                  else String c (before sep r)
  end.

(** Truth value of a string: non-empty. *)
Definition truthy (s : string) : bool :=
  match s with EmptyString => false | String _ _ => true end.

(** [str(n)] for an [int]. *)
Definition of_Z (n : Z) : string := NilZero.string_of_int (Z.to_int n).

(** [str(n)] for a length. *)
Definition of_nat (n : nat) : string := of_Z (Z.of_nat n).

Definition newline : string := String (ascii_of_nat 10) EmptyString.

End Str.

(* ================================================================= *)
(** ** Data model *)

(** Modelled from the spec: the classes [ConfigPlayer], [Member] (with its
    [profile]) and [Match] come from the package [aoe], which is imported
    by [main.py] and is not part of the sources at hand.  The records hold
    the attributes [main.py] reads, with the types the specification gives
    them (section 3). *)
Module ConfigPlayer.
Record t := mk { name : string; steamId : string; profileId : Z }.
End ConfigPlayer.

Module Profile.
Record t := mk { id : Z; alias : string; country : option string }.
End Profile.

Module Member.
Record t := mk {
  profile : Profile.t;
  teamid : Z;
  oldrating : Z;
  outcome : Z;
  replay_link : string
}.
End Member.

Module Match.
Record t := mk {
  id : Z;
  matchtype_id : Z;
  mapname : string;
  insights_link : string;
  members : list Member.t
}.
End Match.

(** [class Team] *)
Module Team.
Record t := mk { members : list Member.t; number : Z }.
End Team.

(** [class TeamMatch]; the attribute [match] is spelled [match_] here. *)
Module TeamMatch.
Record t := mk { match_ : Match.t; teams : list Team.t }.
End TeamMatch.

(** The [discord.Embed] the formatter fills: colour, title and the fields
    added by [add_field], in order.  [add_field] stores [str(name)]: a
    name given as a string is kept, and the name [None] is stored as the
    text "None". *)
Module Embed.
Record field := mk_field {
  name : option string;
  value : string;
  inline : bool
}.
Record t := mk { color : Z; title : string; fields : list field }.

(** [str(name)] for a name that is a string or [None]. *)
Definition str_name (n : option string) : string :=
  match n with
  | Some s => s
  | None => "None"
  end.

Definition add_field (e : t) (n : option string) (v : string) (i : bool) : t :=
  mk (color e) (title e) (fields e ++ [mk_field (Some (str_name n)) v i]).
End Embed.

(* ================================================================= *)
(** ** Loops that build a string *)

(** The recurring loop
    [for i, x in enumerate(xs): s += x; if i < len(xs) - 1: s += sep]. *)
Fixpoint join_loop (sep : string) (len : Z) (i : Z) (xs : list string)
    (s : string) : string :=
  match xs with
  | [] => s
  | x :: rest =>
      let s := s ++ x in
      let s := if i <? len - 1 then s ++ sep else s in
      join_loop sep len (i + 1) rest s
  end.

(** The loops of [TeamMatch.versus_str]: the members of every team are
    appended to the one string [s]. *)
Fixpoint versus_str_loop (len : Z) (i : Z) (teams : list Team.t)
    (s : string) : string :=
  match teams with
  | [] => s
  | team :: rest =>
      let mbs := Team.members team in
      let s :=
        join_loop ", " (Z.of_nat (List.length mbs)) 0
          (map (fun mb => Profile.alias (Member.profile mb)) mbs) s in
      let s := if i <? len - 1 then s ++ " vs " else s in
      versus_str_loop len (i + 1) rest s
  end.

(** [TeamMatch.versus_str] *)
Definition versus_str (self : TeamMatch.t) : string :=
  let teams := TeamMatch.teams self in
  versus_str_loop (Z.of_nat (List.length teams)) 0 teams "".

(* ================================================================= *)
(** ** Match classifier *)

(** The table [Gametypes] of [is_ranked_game]. *)
Definition Gametypes : list (Z * string) :=
  [ (0, "Unranked");
    (2, "Ranked Deathmatch");
    (6, "Ranked Random Map 1v1");
    (7, "Ranked Random Map 2v2");
    (8, "Ranked Random Map 3v3");
    (9, "Ranked Random Map 4v4");
    (26, "Ranked Empire Wars 1v1");
    (27, "Ranked Empire Wars 2v2");
    (28, "Ranked Empire Wars 3v3");
    (29, "Ranked Empire Wars 4v4");
    (120, "Ranked Return of Rome 1v1");
    (121, "Ranked Return of Rome Team") ].

(** [d[k]]: [None] stands for [KeyError]. *)
Fixpoint dict_get (d : list (Z * string)) (k : Z) : option string :=
  match d with
  | [] => None
  | (k', v) :: rest => if k' =? k then Some v else dict_get rest k
  end.

(** [MessageFormatter.is_ranked_game] *)
Definition is_ranked_game (matchtype_id : Z) : bool :=
  match dict_get Gametypes matchtype_id with
  | Some name => Str.contains "ranked" (Str.lower name)
  | None => false
  end.

(** [MessageFormatter.extract_clan_teammates]: a member is appended once
    for every roster entry that carries its profile id. *)
Definition extract_clan_teammates (match_ : TeamMatch.t)
    (clan_players : list ConfigPlayer.t) : list Member.t :=
  if Nat.eqb (List.length (TeamMatch.teams match_)) 2 then
    flat_map
      (fun mb =>
         flat_map
           (fun clan_player =>
              if Profile.id (Member.profile mb)
                 =? ConfigPlayer.profileId clan_player
              then [mb] else [])
           clan_players)
      (Match.members (TeamMatch.match_ match_))
  else [].

(** [MessageFormatter.is_training_game] *)
Definition is_training_game (teams : list Team.t)
    (teammates members : list Member.t) : bool :=
  (Nat.eqb (List.length teammates) (List.length members)
   || negb (Nat.eqb (List.length teams) 2))%bool.

(* ================================================================= *)
(** ** Effects *)

(** What [requests.get] can do: answer with a status code, or raise a
    [requests.exceptions.RequestException]. *)
Inductive http_result :=
| Response (status_code : Z)
| RequestException (e : string).

(** What the match-history client of the package [aoe] can hand to
    [Engine.get_lastmatches]: a list of matches, [None], or an exception. *)
Inductive client_result :=
| CliMatches (matches : list Match.t)
| CliNone
| CliRaise (e : string).

(** The observable actions of the program. *)
Inductive event :=
| LogInfo (msg : string)
| LogError (msg : string)
| HttpGet (url : string) (r : http_result)
| WebhookSend (content : string) (embed : Embed.t) (raised : option string)
| ClientFetch (r : client_result)
| Sleep (secs : Z).

(** The history of a run, newest event first. *)
Definition trace := list event.

(** The outcome of a call: a value, or a raised exception. *)
Inductive result (A : Type) :=
| Ok (a : A)
| Raise (e : string).
Arguments Ok {A} a.
Arguments Raise {A} e.

(** The network probes of a history, oldest first, with their answers. *)
Definition probes (tr : trace) : list (string * http_result) :=
  flat_map (fun ev => match ev with
                      | HttpGet url r => [(url, r)]
                      | _ => []
                      end) (rev tr).

(** The notifications handed to the webhook in a history, oldest first. *)
Definition sends (tr : trace) : list (string * Embed.t * option string) :=
  flat_map (fun ev => match ev with
                      | WebhookSend content embed r => [(content, embed, r)]
                      | _ => []
                      end) (rev tr).

(** The exception the interpreter raises for [for x in None], as the text
    [str(exc)] that a log of it shows. *)
Definition TypeError_None : string :=
  "'NoneType' object is not iterable".

(** The exception [requests] raises for an empty URL, before any
    connection is opened; it is a [RequestException]. *)
Definition MissingSchema : string :=
  "Invalid URL '': No scheme supplied. Perhaps you meant https://?".

(** [class MessageFormatter]: the attributes set by [__init__]. *)
Module MessageFormatter.
Record t := mk {
  teammates : list Member.t;
  is_ranked : bool;
  is_training : bool;
  is_victory : bool;
  teams : list Team.t;
  color : Z;
  title : string;
  insights_link : string;
  record_link : option string
}.
End MessageFormatter.

Section Notifier.

(** The answer of the network to a GET of a non-empty URL, given the
    history so far. *)
Variable net_get : trace -> string -> http_result.

(** [requests.get(url)].  An empty URL is refused before any connection
    is opened.  Every other URL is handed to [net_get] and recorded as a
    probe, also a malformed one that [requests] would refuse without
    connecting: the recorded probes are at least the connections made. *)
Definition requests_get (url : string) (tr : trace) : http_result * trace :=
  if Str.truthy url then
    let r := net_get tr url in (r, HttpGet url r :: tr)
  else (RequestException MissingSchema, tr).

(* --------------------------------------------------------------- *)
(** *** Record link resolver *)

(** The [for mb in members] loop of [set_record_link]; the result is the
    final value of [link]. *)
Fixpoint set_record_link_loop (members : list Member.t) (tr : trace)
    : string * trace :=
  match members with
  | [] => ("", tr)
  | mb :: rest =>
      match requests_get (Member.replay_link mb) tr with
      | (Response status_code, tr) =>
          if status_code =? 200 then
            (Member.replay_link mb,
             LogInfo "Found a valid record link" :: tr)
          else set_record_link_loop rest tr
      | (RequestException e, tr) =>
          set_record_link_loop rest
            (LogError ("couldn't validate the replay URL "
                       ++ Member.replay_link mb ++ ", " ++ e) :: tr)
      end
  end.

Definition download_line (link : string) : string :=
  "▸ **[Download replay](" ++ link ++ ")**".

(** [MessageFormatter.set_record_link] *)
Definition set_record_link (members : list Member.t) (tr : trace)
    : option string * trace :=
  let tr := LogInfo "Looking for a valid record link" :: tr in
  let '(link, tr) := set_record_link_loop members tr in
  if Str.truthy link then (Some (download_line link), tr) else (None, tr).

(* --------------------------------------------------------------- *)
(** *** Message formatter *)

(** [MessageFormatter.clan_is_winner] *)
Definition clan_is_winner (teammates : list Member.t) (is_training : bool)
    (tr : trace) : bool * trace :=
  if is_training then (false, LogInfo "this was an internal match" :: tr)
  else
    let winners :=
      filter (fun teammate => Member.outcome teammate >? 0) teammates in
    if Z.of_nat (List.length winners) >? 0
    then (true, LogInfo "the clan is victorious" :: tr)
    else (false, LogInfo "the clan has been defeated" :: tr).

(** [MessageFormatter.set_color]: the body reads the attributes
    [self.is_training] and [self.is_victory]; its two parameters are not
    used. *)
Definition set_color (self_is_training self_is_victory : bool)
    (is_training is_victory : bool) : Z :=
  if self_is_training then 7506394
  else if self_is_victory then 5089895
  else 10961731.

(** [MessageFormatter.set_title] *)
Definition set_title (teams : list Team.t) (mapname : string)
    (is_ranked : bool) : string :=
  let title := if is_ranked then "Ranked " else "" in
  let title :=
    join_loop " vs " (Z.of_nat (List.length teams)) 0
      (map (fun team => Str.of_nat (List.length (Team.members team))) teams)
      title in
  title ++ " on " ++ Str.capitalize (Str.before "." mapname).

(** [MessageFormatter.set_insights_link] *)
Definition set_insights_link (link : string) : string :=
  "▸ **[Link to match insights](" ++ link ++ ")**".

(** [MessageFormatter.__init__] *)
Definition MessageFormatter_init (match_ : TeamMatch.t)
    (clan_players : list ConfigPlayer.t) (tr : trace)
    : MessageFormatter.t * trace :=
  let m := TeamMatch.match_ match_ in
  let teammates := extract_clan_teammates match_ clan_players in
  let is_ranked := is_ranked_game (Match.matchtype_id m) in
  let is_training :=
    is_training_game (TeamMatch.teams match_) teammates (Match.members m) in
  let '(is_victory, tr) := clan_is_winner teammates is_training tr in
  let teams := TeamMatch.teams match_ in
  let color := set_color is_training is_victory is_training is_victory in
  let title := set_title (TeamMatch.teams match_) (Match.mapname m) is_ranked in
  let insights_link := set_insights_link (Match.insights_link m) in
  let '(record_link, tr) := set_record_link (Match.members m) tr in
  (MessageFormatter.mk teammates is_ranked is_training is_victory teams
     color title insights_link record_link, tr).

(** The [for n, m in enumerate(self.teammates)] loop of
    [generate_message]. *)
Fixpoint header_loop (len : Z) (n : Z) (teammates : list Member.t)
    (header : string) : string :=
  match teammates with
  | [] => header
  | m :: rest =>
      let header :=
        header ++ Str.capitalize (Profile.alias (Member.profile m)) in
      let header :=
        if n <? len - 2 then header ++ ", "
        else if n <? len - 1 then header ++ " and "
        else header in
      header_loop len (n + 1) rest header
  end.

(** [MessageFormatter.generate_message] *)
Definition generate_message (self : MessageFormatter.t) : string :=
  if MessageFormatter.is_training self then "Match results."
  else
    let teammates := MessageFormatter.teammates self in
    let len := Z.of_nat (List.length teammates) in
    let header := header_loop len 0 teammates "" in
    if MessageFormatter.is_victory self then
      header ++ " " ++ (if len >? 1 then "are" else "is") ++ " victorious."
    else
      header ++ " " ++ (if len >? 1 then "have" else "has")
             ++ " been defeated.".

(** [MessageFormatter.format_player_name] *)
Definition format_player_name (member : Member.t) : string :=
  let p := Member.profile member in
  let name := "" in
  let name :=
    match Profile.country p with
    | Some c =>
        if Str.truthy c then name ++ ":flag_" ++ Str.lower c ++ ": "
        else name ++ ":globe_with_meridians: "
    | None => name ++ ":globe_with_meridians: "
    end in
  let alias :=
    Profile.alias p ++ " (" ++ Str.of_Z (Member.oldrating member) ++ ")" in
  let name :=
    name ++ "[" ++ alias ++ "](https://www.aoe2insights.com/user/"
         ++ Str.of_Z (Profile.id p) ++ "/)" in
  if Member.outcome member >? 0 then name ++ " :crown:" else name.

(** [MessageFormatter.format_inline_desc] *)
Fixpoint format_inline_desc_loop (len : Z) (it : Z) (teams : list Team.t)
    (embed : Embed.t) : Embed.t :=
  match teams with
  | [] => embed
  | team :: rest =>
      let name := "Team " ++ Str.of_Z (it + 1) in
      let mbs := Team.members team in
      let value :=
        join_loop Str.newline (Z.of_nat (List.length mbs)) 0
          (map format_player_name mbs) "" in
      let embed := Embed.add_field embed (Some name) value true in
      let embed :=
        if it <? len - 1 then Embed.add_field embed (Some "") "" true
        else embed in
      format_inline_desc_loop len (it + 1) rest embed
  end.

Definition format_inline_desc (embed : Embed.t) (teams : list Team.t)
    : Embed.t :=
  format_inline_desc_loop (Z.of_nat (List.length teams)) 0 teams embed.

(** The outer loop of [format_multiline_desc]. *)
Fixpoint format_multiline_desc_loop (len : Z) (it : Z)
    (teams : list Team.t) (desc : string) : string :=
  match teams with
  | [] => desc
  | team :: rest =>
      let mbs := Team.members team in
      let desc :=
        join_loop ", " (Z.of_nat (List.length mbs)) 0
          (map format_player_name mbs) desc in
      let desc :=
        if it <? len - 1
        then desc ++ Str.newline ++ "**Versus**" ++ Str.newline
        else desc in
      format_multiline_desc_loop len (it + 1) rest desc
  end.

(** [MessageFormatter.format_multiline_desc] *)
Definition format_multiline_desc (embed : Embed.t) (teams : list Team.t)
    : Embed.t :=
  let desc :=
    format_multiline_desc_loop (Z.of_nat (List.length teams)) 0 teams "" in
  Embed.add_field embed None desc false.

(** [MessageFormatter.generate_embed] *)
Definition generate_embed (self : MessageFormatter.t) : Embed.t :=
  let embed :=
    Embed.mk (MessageFormatter.color self) (MessageFormatter.title self) [] in
  let teams := MessageFormatter.teams self in
  let embed :=
    if negb (Nat.eqb (List.length teams) 2)
    then format_multiline_desc embed teams
    else format_inline_desc embed teams in
  let links := MessageFormatter.insights_link self in
  let links :=
    match MessageFormatter.record_link self with
    | Some record_link => links ++ Str.newline ++ record_link
    | None => links
    end in
  Embed.add_field embed (Some "") links false.

End Notifier.

(* ================================================================= *)
(** ** Team assembler *)

(** The inner loop [for team in teams] of [set_teams]: the member is
    appended to every team whose number is its (non-negative) team id; the
    second component is the final value of [found]. *)
Fixpoint set_teams_find (member : Member.t) (teams : list Team.t)
    (found : bool) : list Team.t * bool :=
  match teams with
  | [] => ([], found)
  | team :: rest =>
      if ((Member.teamid member >? -1)
          && (Team.number team =? Member.teamid member))%bool
      then
        let team := Team.mk (Team.members team ++ [member]) (Team.number team) in
        let '(rest, found) := set_teams_find member rest true in
        (team :: rest, found)
      else
        let '(rest, found) := set_teams_find member rest found in
        (team :: rest, found)
  end.

(** One turn of the outer loop [for member in members]. *)
Definition set_teams_step (teams : list Team.t) (member : Member.t)
    : list Team.t :=
  let '(teams, found) := set_teams_find member teams false in
  if found then teams
  else teams ++ [Team.mk [member] (Member.teamid member)].

(** [sorted(teams, key=lambda team: team.number)]: the stable ascending
    sort, as an insertion sort that keeps equal keys in their order. *)
Fixpoint sorted_insert (team : Team.t) (sorted_teams : list Team.t)
    : list Team.t :=
  match sorted_teams with
  | [] => [team]
  | t :: rest =>
      if Team.number team <=? Team.number t then team :: t :: rest
      else t :: sorted_insert team rest
  end.

Definition sorted_by_number (teams : list Team.t) : list Team.t :=
  fold_right sorted_insert [] teams.

(** [Engine.set_teams] *)
Definition set_teams (members : list Member.t) : list Team.t :=
  let teams := fold_left set_teams_step members [] in
  sorted_by_number teams.

(* ================================================================= *)
(** ** Polling loop *)

(** How a run of [Engine.run] stands after a number of turns of its
    [while True] loop. *)
Inductive run_state :=
| Looping (prev : list TeamMatch.t)
| Returned
| Raised (e : string).

Section Engine.

Variable net_get : trace -> string -> http_result.

(** [self.cli.get_lastmatches(players)], given the history so far. *)
Variable cli : trace -> list ConfigPlayer.t -> client_result.

(** [self.webhook.send(content, embed)], given the history so far:
    [None] when the call returns, [Some e] when it raises [e]. *)
Variable webhook : trace -> string -> Embed.t -> option string.

(** [self.players] *)
Variable players : list ConfigPlayer.t.

Definition webhook_send (content : string) (embed : Embed.t) (tr : trace)
    : result unit * trace :=
  let r := webhook tr content embed in
  let tr := WebhookSend content embed r :: tr in
  match r with
  | None => (Ok tt, tr)
  | Some e => (Raise e, tr)
  end.

(** [Engine.check_results] *)
Fixpoint check_results (prev new : list TeamMatch.t) (tr : trace)
    : result unit * trace :=
  match new with
  | [] => (Ok tt, tr)
  | n :: rest =>
      let found :=
        filter (fun p => Match.id (TeamMatch.match_ p)
                         =? Match.id (TeamMatch.match_ n)) prev in
      match found with
      | [] =>
          let tr := LogInfo ("new finished match: " ++ versus_str n) :: tr in
          let '(formatter, tr) := MessageFormatter_init net_get n players tr in
          let message := generate_message formatter in
          let embed := generate_embed formatter in
          match webhook_send message embed tr with
          | (Ok _, tr) => check_results prev rest tr
          | (Raise e, tr) => (Raise e, tr)
          end
      | _ :: _ => check_results prev rest tr
      end
  end.

(** [Engine.get_lastmatches] *)
Definition get_lastmatches (tr : trace)
    : result (option (list TeamMatch.t)) * trace :=
  let r := cli tr players in
  let tr := ClientFetch r :: tr in
  match r with
  | CliMatches matches =>
      (Ok (Some (map (fun match_ =>
                        TeamMatch.mk match_
                          (set_teams (Match.members match_)))
                     matches)), tr)
  | CliNone => (Raise TypeError_None, tr)
  | CliRaise e => (Raise e, tr)
  end.

(** One turn of the [while True] loop of [Engine.run]; the value is the
    [prev] of the next turn. *)
Definition tick (prev : list TeamMatch.t) (tr : trace)
    : result (list TeamMatch.t) * trace :=
  let tr := Sleep 50 :: tr in
  match get_lastmatches tr with
  | (Raise e, tr) => (Raise e, tr)
  | (Ok None, tr) => (Ok prev, LogError "could't refresh matches" :: tr)
  | (Ok (Some new), tr) =>
      match check_results prev new tr with
      | (Raise e, tr) => (Raise e, tr)
      | (Ok _, tr) => (Ok new, LogInfo "matches refreshed" :: tr)
      end
  end.

(** [fuel] turns of the loop. *)
Fixpoint run_loop (fuel : nat) (prev : list TeamMatch.t) (tr : trace)
    : run_state * trace :=
  match fuel with
  | O => (Looping prev, tr)
  | S fuel =>
      match tick prev tr with
      | (Ok prev, tr) => run_loop fuel prev tr
      | (Raise e, tr) => (Raised e, tr)
      end
  end.

(** [Engine.run], observed after [fuel] turns of its loop. *)
Definition run (fuel : nat) (tr : trace) : run_state * trace :=
  match get_lastmatches tr with
  | (Raise e, tr) => (Raised e, tr)
  | (Ok None, tr) => (Returned, LogError "could't initialize matches" :: tr)
  | (Ok (Some prev), tr) =>
      run_loop fuel prev (LogInfo "recent matches initialized" :: tr)
  end.

(** [main] once the configuration is loaded: the guard around
    [engine.run()]. *)
Definition main (fuel : nat) (tr : trace) : run_state * trace :=
  let tr := LogInfo "starting AoE Engine..." :: tr in
  match run fuel tr with
  | (Looping prev, tr) => (Looping prev, tr)
  | (Returned, tr) => (Returned, LogInfo "exiting..." :: tr)
  | (Raised e, tr) => (Returned, LogError e :: tr)
  end.

End Engine.

(* ================================================================= *)
(** ** Definitions that follow the specification's words *)

(** "Join the names with commas and a final 'and'". *)
Fixpoint join_and (names : list string) : string :=
  match names with
  | [] => ""
  | a :: rest =>
      match rest with
      | [] => a
      | [b] => a ++ " and " ++ b
      | _ => a ++ ", " ++ join_and rest
      end
  end.

(** "The members whose profile id is in the roster, computed only when
    there are exactly two teams". *)
Definition in_roster (roster : list ConfigPlayer.t) (mb : Member.t) : bool :=
  existsb (fun p => Profile.id (Member.profile mb) =? ConfigPlayer.profileId p)
          roster.

Definition spec_teammates (m : TeamMatch.t) (roster : list ConfigPlayer.t)
    : list Member.t :=
  if Nat.eqb (List.length (TeamMatch.teams m)) 2
  then filter (in_roster roster) (Match.members (TeamMatch.match_ m))
  else [].

(** "True iff the number of teammates equals the total member count, or
    the match does not have exactly two teams". *)
Definition spec_is_training (m : TeamMatch.t) (roster : list ConfigPlayer.t)
    : bool :=
  (Nat.eqb (List.length (spec_teammates m roster))
           (List.length (Match.members (TeamMatch.match_ m)))
   || negb (Nat.eqb (List.length (TeamMatch.teams m)) 2))%bool.

(** "Any 2xx status is a success". *)
Definition is_2xx (status_code : Z) : bool :=
  ((200 <=? status_code) && (status_code <? 300))%bool.

(** "Strictly ascending by team number". *)
Definition strictly_ascending (teams : list Team.t) : Prop :=
  StronglySorted Z.lt (map Team.number teams).

(** Ascending by team number, where only negative numbers may repeat. *)
Definition team_before (a b : Team.t) : Prop :=
  Team.number a < Team.number b
  \/ (Team.number a = Team.number b /\ Team.number a < 0).

(** The team a member without a team gets: itself alone. *)
Definition singleton_team (mb : Member.t) : Team.t :=
  Team.mk [mb] (Member.teamid mb).

Definition no_team (mb : Member.t) : bool := Member.teamid mb <? 0.

Definition unnumbered (team : Team.t) : bool := Team.number team <? 0.

(* ================================================================= *)
(** ** Definitions used in the statements *)

Definition capitalized_alias (t : Member.t) : string :=
  Str.capitalize (Profile.alias (Member.profile t)).

Definition not_200 (p : string * http_result) : Prop := snd p <> Response 200.

Definition candidates (k : nat) (members : list Member.t) : list string :=
  filter Str.truthy (map Member.replay_link (firstn k members)).

Definition match_id (n : TeamMatch.t) : Z := Match.id (TeamMatch.match_ n).

Definition number_le (a b : Team.t) : Prop := Team.number a <= Team.number b.

(** The test of the inner loop of [set_teams]. *)
Definition joins (mb : Member.t) (team : Team.t) : bool :=
  ((Member.teamid mb >? -1) && (Team.number team =? Member.teamid mb))%bool.

Definition with_member (mb : Member.t) (team : Team.t) : Team.t :=
  if joins mb team
  then Team.mk (Team.members team ++ [mb]) (Team.number team)
  else team.

Definition numbered (team : Team.t) : bool := 0 <=? Team.number team.

Definition same_team (k : Z) (mb : Member.t) : bool := Member.teamid mb =? k.

(** The teams before the sort. *)
Definition grouped (members : list Member.t) : list Team.t :=
  fold_left set_teams_step members [].

(** What holds of the teams before the sort. *)
Record grouping (members : list Member.t) (teams : list Team.t) : Prop := {
  grouping_numbered :
    forall t, In t teams -> 0 <= Team.number t ->
              Team.members t = filter (same_team (Team.number t)) members;
  grouping_unnumbered :
    filter unnumbered teams = map singleton_team (filter no_team members);
  grouping_distinct : NoDup (map Team.number (filter numbered teams));
  grouping_covers :
    forall mb, In mb members -> 0 <= Member.teamid mb ->
               In (Member.teamid mb) (map Team.number teams);
  grouping_perm : Permutation (flat_map Team.members teams) members
}.

(* ================================================================= *)
(** ** Sample data *)

Module Sample.

Definition member (pid : Z) (alias : string) (teamid outcome : Z)
    (replay_link : string) : Member.t :=
  Member.mk (Profile.mk pid alias None) teamid 1000 outcome replay_link.

Definition alice := member 7 "alice" 1 1 "".
Definition bob := member 8 "bob" 1 0 "".
Definition carol := member 20 "carol" 2 0 "".
Definition dave := member 21 "dave" 2 1 "".

Definition player (pid : Z) : ConfigPlayer.t :=
  ConfigPlayer.mk "player" "steam" pid.

Definition game (id : Z) (members : list Member.t) : TeamMatch.t :=
  TeamMatch.mk (Match.mk id 6 "arabia.rms" "https://insights/1" members)
               (set_teams members).

(** A network on which every probe answers [status_code]. *)
Definition always (status_code : Z) : trace -> string -> http_result :=
  fun _ _ => Response status_code.

(** A network that is down. *)
Definition offline : trace -> string -> http_result :=
  fun _ _ => RequestException "connection refused".

End Sample.

Module SampleC6.
Import Sample.
(** A roster file that lists the same player twice. *)
Definition roster := [player 7; player 7].
(** Alice, of the roster, against Carol, who is not. *)
Definition m := game 42 [alice; carol].
End SampleC6.

Module SampleC7.
Import Sample.
Definition roster := [player 7; player 8].
(** Alice wins a one-against-one against Carol. *)
Definition duel := game 42 [alice; carol].
(** Alice and Bob lose against Carol and Dave. *)
Definition lost :=
  game 43 [member 7 "alice" 1 0 ""; bob; carol; dave].
End SampleC7.

Module SampleC10.
Import Sample.
Definition roster := [player 7; player 8].
Definition m := game 44 [carol; member 30 "erin" 3 1 ""].
End SampleC10.

Module SampleC3.
Import Sample.
Definition first := member 7 "alice" 1 1 "https://replay/1".
Definition second := member 8 "bob" 1 1 "https://replay/2".
Definition third := member 20 "carol" 2 0 "https://replay/3".
Definition unrecorded := member 21 "dave" 2 0 "".

(** The first replay is unreachable, the others are served. *)
Definition net : trace -> string -> http_result :=
  fun _ url =>
    if String.eqb url "https://replay/1"
    then RequestException "connection refused"
    else Response 200.
End SampleC3.

Module SampleC5.
Import Sample.
Definition snapshot : list TeamMatch.t := [game 42 [alice; carol]].
Definition roster := [player 7].
(** The client answers with the same single match at every poll. *)
Definition cli : trace -> list ConfigPlayer.t -> client_result :=
  fun _ _ => CliMatches [Match.mk 42 6 "arabia.rms" "https://insights/1"
                           [alice; carol]].
(** A webhook that accepts everything. *)
Definition webhook : trace -> string -> Embed.t -> option string :=
  fun _ _ _ => None.
End SampleC5.

Module SampleC2.
Import Sample.
Definition roster := [player 7].
Definition first := game 42 [alice; carol].
Definition second := game 43 [alice; dave].
(** A webhook that is unreachable. *)
Definition webhook : trace -> string -> Embed.t -> option string :=
  fun _ _ _ => Some "HTTPException: 503".
(** A webhook that rejects the first notification only. *)
Definition flaky : trace -> string -> Embed.t -> option string :=
  fun tr _ _ => match sends tr with
                | [] => Some "HTTPException: 503"
                | _ :: _ => None
                end.
Definition cli : trace -> list ConfigPlayer.t -> client_result :=
  fun _ _ => CliMatches [TeamMatch.match_ first; TeamMatch.match_ second].
End SampleC2.

Module SampleC9.
(** A match-history service that cannot be reached. *)
Definition cli : trace -> list ConfigPlayer.t -> client_result :=
  fun _ _ => CliRaise "ConnectionError".
End SampleC9.

Module SampleC8.
Import Sample.
Definition members := [carol; alice; dave; bob].
End SampleC8.

Module SampleC4.
Import Sample.
(** Two members that the service lists without a team. *)
Definition erin := member 30 "erin" (-1) 1 "".
Definition frank := member 31 "frank" (-1) 0 "".
Definition members := [erin; alice; frank].
End SampleC4.

Module SampleX13.
Import Sample.
Definition roster := [player 7; player 8; player 20; player 21].
End SampleX13.

(* ================================================================= *)
(** ** Definitions used in the statements about formatting and the loop *)

(** The aliases of a team, in order. *)
Definition aliases (team : Team.t) : list string :=
  map (fun mb => Profile.alias (Member.profile mb)) (Team.members team).

(** The member count of a team, as text. *)
Definition team_size (team : Team.t) : string :=
  Str.of_nat (List.length (Team.members team)).

(** The last character of a string. *)
Fixpoint last_char (s : string) : option ascii :=
  match s with
  | EmptyString => None
  | String c r => match r with
                  | EmptyString => Some c
                  | String _ _ => last_char r
                  end
  end.

(** "One named field per team, an empty spacer field between team fields
    except after the last". *)
Fixpoint inline_fields (value : Team.t -> string) (it : Z)
    (teams : list Team.t) : list Embed.field :=
  match teams with
  | [] => []
  | team :: rest =>
      Embed.mk_field (Some ("Team " ++ Str.of_Z (it + 1))) (value team) true
      :: match rest with
         | [] => []
         | _ :: _ =>
             Embed.mk_field (Some "") "" true
             :: inline_fields value (it + 1) rest
         end
  end.

(** The member lines of a team, joined by [sep]. *)
Definition member_lines (line : Member.t -> string) (sep : string)
    (team : Team.t) : string :=
  String.concat sep (map line (Team.members team)).

Definition versus_marker : string :=
  Str.newline ++ "**Versus**" ++ Str.newline.

(** Whether the country of a member is known: [member.profile.country] is
    neither [None] nor empty. *)
Definition has_country (mb : Member.t) : bool :=
  match Profile.country (Member.profile mb) with
  | Some c => Str.truthy c
  | None => false
  end.

(** The flag or globe indicator of a member line. *)
Definition player_flag (mb : Member.t) : string :=
  match Profile.country (Member.profile mb) with
  | Some c => if Str.truthy c then ":flag_" ++ Str.lower c ++ ": "
              else ":globe_with_meridians: "
  | None => ":globe_with_meridians: "
  end.

(** The alias, the rating and the profile page of a member line. *)
Definition player_link (mb : Member.t) : string :=
  "[" ++ Profile.alias (Member.profile mb)
      ++ " (" ++ Str.of_Z (Member.oldrating mb)
      ++ ")](https://www.aoe2insights.com/user/"
      ++ Str.of_Z (Profile.id (Member.profile mb)) ++ "/)".

(** The trailing link lines of the body. *)
Definition link_lines (self : MessageFormatter.t) : string :=
  match MessageFormatter.record_link self with
  | Some record_link =>
      MessageFormatter.insights_link self ++ Str.newline ++ record_link
  | None => MessageFormatter.insights_link self
  end.

(** The number of members with team id [k]. *)
Definition team_count (members : list Member.t) (k : Z) : nat :=
  List.length (filter (same_team k) members).

(** Whether an answer of the network is status 200. *)
Definition answers_200 (r : http_result) : bool :=
  match r with
  | Response status_code => status_code =? 200
  | RequestException _ => false
  end.

(** The snapshot [Engine.get_lastmatches] builds from the matches of the
    client. *)
Definition snapshot_of (matches : list Match.t) : list TeamMatch.t :=
  map (fun match_ => TeamMatch.mk match_ (set_teams (Match.members match_)))
      matches.

(** The header as the specification words it, over the members whose
    profile id is in the roster: "Match results." for a training match;
    otherwise their capitalized aliases joined with commas and a final
    "and", with the singular verb forms for one teammate and the plural
    ones for more, victorious iff some teammate has a positive outcome. *)
Definition spec_header (m : TeamMatch.t) (roster : list ConfigPlayer.t)
    : string :=
  if spec_is_training m roster then "Match results."
  else
    let mates := spec_teammates m roster in
    let names := join_and (map capitalized_alias mates) in
    let won := existsb (fun t => Member.outcome t >? 0) mates in
    let plural := Nat.ltb 1 (List.length mates) in
    if won
    then names ++ (if plural then " are victorious." else " is victorious.")
    else names ++ (if plural then " have been defeated."
                   else " has been defeated.").

(** A roster file that lists the same player twice, and a match of that
    player against two outsiders. *)
Module SampleC7dup.
Definition roster := [Sample.player 7; Sample.player 7].
Definition m := Sample.game 45 [Sample.alice; Sample.carol; Sample.dave].
End SampleC7dup.

(** A match of a fetched snapshot is new when no match of the baseline has
    its id. *)
Definition is_new (prev : list TeamMatch.t) (n : TeamMatch.t) : bool :=
  negb (existsb (fun p => match_id p =? match_id n) prev).

(** The message texts handed to the webhook in a history, oldest first. *)
Definition sent_contents (tr : trace) : list string :=
  map (fun s => fst (fst s)) (sends tr).

(** The number of roster entries that carry the profile id of a member. *)
Definition roster_entries (roster : list ConfigPlayer.t) (mb : Member.t)
    : nat :=
  List.length
    (filter (fun p => Profile.id (Member.profile mb)
                      =? ConfigPlayer.profileId p) roster).

(* ================================================================= *)
(** ** Strings: associativity of concatenation *)

Lemma str_app_assoc (a b c : string) : ((a ++ b) ++ c = a ++ (b ++ c))%string.
Proof. induction a as [|x a IH]; simpl; [reflexivity | now rewrite IH]. Qed.

Lemma str_app_nil_r (a : string) : (a ++ "" = a)%string.
Proof. induction a as [|x a IH]; simpl; [reflexivity | now rewrite IH]. Qed.

(* ================================================================= *)
(** ** Ranked classification *)

(** The ids the code classifies as ranked: every key of the table. *)
Lemma is_ranked_game_true_iff (matchtype_id : Z) :
  is_ranked_game matchtype_id = true
  <-> In matchtype_id [0; 2; 6; 7; 8; 9; 26; 27; 28; 29; 120; 121].
Proof.
  unfold is_ranked_game, Gametypes; cbn [dict_get].
  repeat match goal with
         | |- context [?k =? matchtype_id] =>
             destruct (Z.eqb_spec k matchtype_id);
             [subst; split; [intros _; cbn; tauto | intros _; reflexivity] |]
         end.
  split; [discriminate | cbn; intuition congruence].
Qed.

(** An id outside the table is not ranked, and the lookup failure does not
    surface. *)
Lemma is_ranked_game_unknown (matchtype_id : Z) :
  dict_get Gametypes matchtype_id = None ->
  is_ranked_game matchtype_id = false.
Proof. unfold is_ranked_game; intros ->; reflexivity. Qed.

(** C1 (fails on the code): the claim has id 0, "Unranked", not ranked.
    [is_ranked_game] tests whether the lower-cased name contains "ranked",
    and "unranked" does, so the code answers [True] for id 0. *)
Theorem is_ranked_game_Unranked :
  dict_get Gametypes 0 = Some "Unranked" /\ is_ranked_game 0 = true.
Proof. split; reflexivity. Qed.

(* ================================================================= *)
(** ** Classification of a match *)

Lemma winners_existsb (f : Member.t -> bool) (l : list Member.t) :
  (Z.of_nat (List.length (filter f l)) >? 0) = existsb f l.
Proof.
  induction l as [|t l IH]; [reflexivity|].
  cbn [filter existsb]. destruct (f t); [|exact IH].
  cbn [List.length orb]. rewrite Nat2Z.inj_succ.
  destruct (Z.gtb_spec (Z.succ (Z.of_nat (List.length (filter f l)))) 0);
    [reflexivity | lia].
Qed.

Section Classifier.

Variable net_get : trace -> string -> http_result.
Variable m : TeamMatch.t.
Variable roster : list ConfigPlayer.t.
Variable tr : trace.

Lemma init_teammates :
  MessageFormatter.teammates (fst (MessageFormatter_init net_get m roster tr))
  = extract_clan_teammates m roster.
Proof.
  unfold MessageFormatter_init.
  destruct (clan_is_winner _ _ _) as [v tr1].
  destruct (set_record_link _ _ _) as [l tr2]. reflexivity.
Qed.

Lemma init_is_training :
  MessageFormatter.is_training (fst (MessageFormatter_init net_get m roster tr))
  = is_training_game (TeamMatch.teams m) (extract_clan_teammates m roster)
      (Match.members (TeamMatch.match_ m)).
Proof.
  unfold MessageFormatter_init.
  destruct (clan_is_winner _ _ _) as [v tr1].
  destruct (set_record_link _ _ _) as [l tr2]. reflexivity.
Qed.

Lemma init_is_victory :
  MessageFormatter.is_victory (fst (MessageFormatter_init net_get m roster tr))
  = (negb (MessageFormatter.is_training
             (fst (MessageFormatter_init net_get m roster tr)))
     && existsb (fun t => Member.outcome t >? 0)
          (MessageFormatter.teammates
             (fst (MessageFormatter_init net_get m roster tr))))%bool.
Proof.
  rewrite init_is_training, init_teammates.
  unfold MessageFormatter_init.
  destruct (clan_is_winner _ _ _) as [v tr1] eqn:E.
  destruct (set_record_link _ _ _) as [l tr2]. cbn.
  unfold clan_is_winner in E.
  destruct (is_training_game _ _ _); [now inversion E|]. cbn.
  rewrite winners_existsb in E.
  destruct (existsb _ _); now inversion E.
Qed.

End Classifier.

Lemma extract_clan_teammates_other (m : TeamMatch.t) roster :
  List.length (TeamMatch.teams m) <> 2%nat ->
  extract_clan_teammates m roster = [].
Proof.
  intros H. unfold extract_clan_teammates.
  destruct (Nat.eqb_spec (List.length (TeamMatch.teams m)) 2);
    [contradiction | reflexivity].
Qed.

(** Every teammate is a member whose profile id is in the roster, and
    every such member is a teammate. *)
Lemma extract_clan_teammates_In (m : TeamMatch.t) roster mb :
  List.length (TeamMatch.teams m) = 2%nat ->
  In mb (extract_clan_teammates m roster)
  <-> In mb (Match.members (TeamMatch.match_ m)) /\ in_roster roster mb = true.
Proof.
  intros H. unfold extract_clan_teammates, in_roster. rewrite H. cbn [Nat.eqb].
  rewrite in_flat_map, existsb_exists. split.
  - intros (x & Hx & Hin). apply in_flat_map in Hin as (p & Hp & Hin).
    destruct (Z.eqb_spec (Profile.id (Member.profile x))
                (ConfigPlayer.profileId p)) as [e|]; [|destruct Hin].
    destruct Hin as [<-|[]]. split; [assumption|].
    exists p. split; [assumption | now apply Z.eqb_eq].
  - intros (Hin & p & Hp & e). exists mb. split; [assumption|].
    apply in_flat_map. exists p. split; [assumption|]. rewrite e. now left.
Qed.

(** With pairwise distinct roster profile ids, the teammates are the
    members whose profile id is in the roster, in order. *)
Lemma extract_clan_teammates_NoDup (m : TeamMatch.t) roster :
  NoDup (map ConfigPlayer.profileId roster) ->
  extract_clan_teammates m roster = spec_teammates m roster.
Proof.
  intros ND. unfold extract_clan_teammates, spec_teammates.
  destruct (Nat.eqb _ 2); [|reflexivity].
  induction (Match.members (TeamMatch.match_ m)) as [|mb l IH];
    [reflexivity|].
  cbn [flat_map filter]. rewrite IH. clear IH.
  assert (E : flat_map
            (fun clan_player =>
               if Profile.id (Member.profile mb)
                  =? ConfigPlayer.profileId clan_player
               then [mb] else []) roster
          = if in_roster roster mb then [mb] else []).
  { unfold in_roster. induction roster as [|p r IHr]; [reflexivity|].
    cbn [flat_map existsb map] in *. inversion ND as [|? ? Hnin ND']; subst.
    rewrite (IHr ND').
    destruct (Z.eqb_spec (Profile.id (Member.profile mb))
                (ConfigPlayer.profileId p)) as [e|]; [|reflexivity].
    cbn [orb].
    destruct (existsb _ r) eqn:Ex; [|reflexivity].
    apply existsb_exists in Ex as (q & Hq & eq). apply Z.eqb_eq in eq.
    exfalso. apply Hnin. rewrite <- e, eq. now apply in_map. }
  rewrite E. now destruct (in_roster roster mb).
Qed.

(** With pairwise distinct roster profile ids the code computes the
    training flag the specification words describe. *)
Lemma is_training_distinct_roster net_get (m : TeamMatch.t) roster tr :
  NoDup (map ConfigPlayer.profileId roster) ->
  MessageFormatter.is_training (fst (MessageFormatter_init net_get m roster tr))
  = spec_is_training m roster.
Proof.
  intros ND. rewrite init_is_training, (extract_clan_teammates_NoDup _ _ ND).
  reflexivity.
Qed.

(** A match that does not have exactly two teams is a training match. *)
Lemma is_training_not_two_teams net_get (m : TeamMatch.t) roster tr :
  List.length (TeamMatch.teams m) <> 2%nat ->
  MessageFormatter.is_training (fst (MessageFormatter_init net_get m roster tr))
  = true.
Proof.
  intros H. rewrite init_is_training. unfold is_training_game.
  destruct (Nat.eqb_spec (List.length (TeamMatch.teams m)) 2);
    [contradiction|]. apply orb_true_r.
Qed.

(** C6 (fails on the code): a one-against-one match of a roster player
    against an outsider has one member whose profile id is in the roster,
    out of two, and two teams, so by the claim it is not a training match.
    When the roster lists that player twice, [extract_clan_teammates]
    appends the member once per roster entry, the teammate count reaches
    the member count and the code classifies the match as training. *)
Theorem is_training_duplicate_roster_entry :
  List.length (TeamMatch.teams SampleC6.m) = 2%nat
  /\ List.length (Match.members (TeamMatch.match_ SampleC6.m)) = 2%nat
  /\ filter (in_roster SampleC6.roster)
            (Match.members (TeamMatch.match_ SampleC6.m)) = [Sample.alice]
  /\ spec_is_training SampleC6.m SampleC6.roster = false
  /\ MessageFormatter.teammates
       (fst (MessageFormatter_init Sample.offline SampleC6.m SampleC6.roster []))
     = [Sample.alice; Sample.alice]
  /\ MessageFormatter.is_training
       (fst (MessageFormatter_init Sample.offline SampleC6.m SampleC6.roster []))
     = true.
Proof. repeat split; reflexivity. Qed.

(* ================================================================= *)
(** ** Header message *)

(** The loop of [generate_message] joins the capitalized aliases with
    commas and a final "and". *)
Lemma header_loop_join_and (teammates : list Member.t) :
  forall len n header,
    len = n + Z.of_nat (List.length teammates) ->
    header_loop len n teammates header
    = (header ++ join_and (map capitalized_alias teammates))%string.
Proof.
  induction teammates as [|t rest IH]; intros len n header Hlen.
  - cbn. now rewrite str_app_nil_r.
  - cbn [header_loop map join_and]. cbn [List.length] in Hlen.
    rewrite Nat2Z.inj_succ in Hlen.
    destruct rest as [|b rest'].
    + cbn [List.length] in Hlen.
      destruct (Z.ltb_spec n (len - 2)); [lia|].
      destruct (Z.ltb_spec n (len - 1)); [lia|]. reflexivity.
    + rewrite (IH len (n + 1)) by lia. clear IH.
      cbn [List.length] in Hlen. rewrite Nat2Z.inj_succ in Hlen.
      destruct rest' as [|c rest''].
      * cbn [List.length] in Hlen.
        destruct (Z.ltb_spec n (len - 2)); [lia|].
        destruct (Z.ltb_spec n (len - 1)); [|lia].
        cbn [map join_and]. unfold capitalized_alias.
        now rewrite !str_app_assoc.
      * cbn [List.length] in Hlen. rewrite Nat2Z.inj_succ in Hlen.
        destruct (Z.ltb_spec n (len - 2)); [|lia].
        cbn [map]. unfold capitalized_alias.
        now rewrite !str_app_assoc.
Qed.

(** The header in terms of the teammates list the formatter holds: it is
    exactly "Match results." for a training match; otherwise it is the
    capitalized aliases of that list joined with commas and a final "and",
    followed by " is victorious." or " has been defeated." for a list of
    one and by " are victorious." or " have been defeated." for a longer
    one, the victorious form being used iff some entry has a positive
    outcome. *)
Lemma generate_message_header :
  forall net_get (m : TeamMatch.t) (roster : list ConfigPlayer.t) (tr : trace),
    let self := fst (MessageFormatter_init net_get m roster tr) in
    let mates := MessageFormatter.teammates self in
    let names := join_and (map capitalized_alias mates) in
    let won := existsb (fun t => Member.outcome t >? 0) mates in
    (MessageFormatter.is_training self = true ->
     generate_message self = "Match results.")
    /\ (MessageFormatter.is_training self = false ->
        List.length mates = 1%nat ->
        generate_message self
        = (names ++ if won then " is victorious."
                    else " has been defeated.")%string)
    /\ (MessageFormatter.is_training self = false ->
        (1 < List.length mates)%nat ->
        generate_message self
        = (names ++ if won then " are victorious."
                    else " have been defeated.")%string).
Proof.
  intros net_get m roster tr self mates names won.
  pose proof (init_is_victory net_get m roster tr) as V.
  fold self in V. fold mates in V. fold won in V.
  unfold generate_message. fold mates.
  rewrite (header_loop_join_and mates _ 0 "") by lia. fold names.
  repeat split.
  - intros ->. reflexivity.
  - intros T L. rewrite T in V |- *. rewrite V, L. cbn [negb andb].
    change (Z.of_nat 1 >? 1) with false. cbn iota.
    now destruct won.
  - intros T L. rewrite T in V |- *. rewrite V. cbn [negb andb].
    destruct (Z.gtb_spec (Z.of_nat (List.length mates)) 1); [|lia].
    now destruct won.
Qed.

Lemma generate_message_header_witness :
  generate_message
    (fst (MessageFormatter_init Sample.offline SampleC7.duel SampleC7.roster []))
  = "Alice is victorious.".
Proof.
  exact (proj1 (proj2 (generate_message_header
                         Sample.offline SampleC7.duel SampleC7.roster []))
           eq_refl eq_refl).
Defined.

(** The two sample headers of the specification. *)
Example header_one_victorious :
  generate_message
    (fst (MessageFormatter_init Sample.offline SampleC7.duel SampleC7.roster []))
  = "Alice is victorious.".
Proof. reflexivity. Qed.

Example header_two_defeated :
  generate_message
    (fst (MessageFormatter_init Sample.offline SampleC7.lost SampleC7.roster []))
  = "Alice and Bob have been defeated.".
Proof. reflexivity. Qed.

(** With pairwise distinct roster profile ids, the header is the one the
    specification words describe. *)
Lemma generate_message_distinct_roster net_get (m : TeamMatch.t) roster tr :
  NoDup (map ConfigPlayer.profileId roster) ->
  generate_message (fst (MessageFormatter_init net_get m roster tr))
  = spec_header m roster.
Proof.
  intros ND. unfold generate_message, spec_header.
  rewrite init_is_victory, (is_training_distinct_roster _ _ _ _ ND).
  rewrite init_teammates, (extract_clan_teammates_NoDup _ _ ND).
  destruct (spec_is_training m roster); [reflexivity|]. cbn [negb andb].
  rewrite (header_loop_join_and _ _ 0 "") by lia. cbv zeta.
  fold capitalized_alias.
  assert (P : (Z.of_nat (List.length (spec_teammates m roster)) >? 1)
              = Nat.ltb 1 (List.length (spec_teammates m roster))).
  { destruct (Z.gtb_spec (Z.of_nat (List.length (spec_teammates m roster))) 1),
             (Nat.ltb_spec 1 (List.length (spec_teammates m roster)));
      try reflexivity; lia. }
  rewrite P.
  destruct (existsb _ (spec_teammates m roster)),
           (Nat.ltb 1 (List.length (spec_teammates m roster))); reflexivity.
Qed.

(** C7 (fails on the code): Alice, the one roster player of a match with
    two teams and three members, wins; she is the only member whose
    profile id is in the roster, so by the claim the header is
    "Alice is victorious.".  When the roster lists her twice,
    [extract_clan_teammates] holds her twice and the header of the code
    names her twice, with the plural verb. *)
Theorem generate_message_duplicate_roster_entry :
  List.length (TeamMatch.teams SampleC7dup.m) = 2%nat
  /\ spec_teammates SampleC7dup.m SampleC7dup.roster = [Sample.alice]
  /\ spec_header SampleC7dup.m SampleC7dup.roster = "Alice is victorious."
  /\ MessageFormatter.teammates
       (fst (MessageFormatter_init Sample.offline SampleC7dup.m
               SampleC7dup.roster []))
     = [Sample.alice; Sample.alice]
  /\ generate_message
       (fst (MessageFormatter_init Sample.offline SampleC7dup.m
               SampleC7dup.roster []))
     = "Alice and Alice are victorious.".
Proof. repeat split; reflexivity. Qed.

(** C10: a match with exactly two teams and a non-empty member list none
    of whose members is in the roster is not a training match, has no
    teammates, and its header is " has been defeated.". *)
Theorem generate_message_no_teammate :
  forall net_get (m : TeamMatch.t) (roster : list ConfigPlayer.t) (tr : trace),
    List.length (TeamMatch.teams m) = 2%nat ->
    Match.members (TeamMatch.match_ m) <> [] ->
    (forall mb, In mb (Match.members (TeamMatch.match_ m)) ->
                in_roster roster mb = false) ->
    let self := fst (MessageFormatter_init net_get m roster tr) in
    MessageFormatter.teammates self = []
    /\ MessageFormatter.is_training self = false
    /\ generate_message self = " has been defeated.".
Proof.
  intros net_get m roster tr H2 Hne Hout self.
  assert (E : MessageFormatter.teammates self = []).
  { unfold self. rewrite init_teammates.
    destruct (extract_clan_teammates m roster) as [|mb l] eqn:X;
      [reflexivity|].
    assert (Hin : In mb (extract_clan_teammates m roster))
      by (rewrite X; now left).
    apply (extract_clan_teammates_In m roster mb H2) in Hin as [Hin R].
    rewrite (Hout mb Hin) in R. discriminate. }
  assert (T : MessageFormatter.is_training self = false).
  { unfold self in *. rewrite init_is_training.
    rewrite init_teammates in E. rewrite E.
    unfold is_training_game. rewrite H2.
    destruct (Match.members (TeamMatch.match_ m)); [contradiction|].
    reflexivity. }
  repeat split; try assumption.
  pose proof (init_is_victory net_get m roster tr) as V. fold self in V.
  unfold generate_message. rewrite T, V, T, E. reflexivity.
Qed.

Lemma generate_message_no_teammate_witness :
  generate_message
    (fst (MessageFormatter_init Sample.offline SampleC10.m SampleC10.roster []))
  = " has been defeated.".
Proof.
  refine (proj2 (proj2 (generate_message_no_teammate
            Sample.offline SampleC10.m SampleC10.roster [] eq_refl _ _))).
  - discriminate.
  - intros mb [<-|[<-|[]]]; reflexivity.
Defined.

(* ================================================================= *)
(** ** Record link resolver *)

Lemma probes_app (a b : trace) :
  probes (a ++ b)%list = (probes b ++ probes a)%list.
Proof. unfold probes. now rewrite rev_app_distr, flat_map_app. Qed.

(** What the loop of [set_record_link] does, in terms of the events it
    adds: it visits the first [k] members, probes their non-empty URLs in
    order, and either ends on the first answer 200, whose URL it returns,
    or visits every member without a 200 and returns the empty string. *)
Lemma set_record_link_loop_spec net_get (members : list Member.t) :
  forall tr, exists evs k,
    snd (set_record_link_loop net_get members tr) = (evs ++ tr)%list
    /\ (k <= List.length members)%nat
    /\ map fst (probes evs) = candidates k members
    /\ ((fst (set_record_link_loop net_get members tr) = ""
         /\ k = List.length members
         /\ Forall not_200 (probes evs))
        \/ (exists mb earlier,
              nth_error members (k - 1) = Some mb
              /\ (0 < k)%nat
              /\ Str.truthy (Member.replay_link mb) = true
              /\ fst (set_record_link_loop net_get members tr)
                 = Member.replay_link mb
              /\ probes evs
                 = (earlier ++ [(Member.replay_link mb, Response 200)])%list
              /\ Forall not_200 earlier)).
Proof.
  induction members as [|mb rest IH]; intros tr.
  - exists [], 0%nat. cbn. repeat split; try lia.
    left. repeat split. constructor.
  - cbn [set_record_link_loop]. unfold requests_get.
    destruct (Str.truthy (Member.replay_link mb)) eqn:U.
    + destruct (net_get tr (Member.replay_link mb)) as [code|e] eqn:R.
      * destruct (Z.eqb_spec code 200) as [->|Hc].
        -- exists [LogInfo "Found a valid record link";
                   HttpGet (Member.replay_link mb) (Response 200)], 1%nat.
           cbn [fst snd]. repeat split; [cbn; lia | |].
           ++ unfold candidates. cbn. now rewrite U.
           ++ right. exists mb, []. repeat split; try assumption; try lia.
              constructor.
        -- destruct (IH (HttpGet (Member.replay_link mb) (Response code) :: tr))
             as (evs & k & Htr & Hk & Hp & Hres).
           exists (evs ++ [HttpGet (Member.replay_link mb) (Response code)])%list,
                  (S k).
           rewrite probes_app. cbn [probes rev flat_map app].
           repeat split.
           ++ rewrite Htr, <- app_assoc. reflexivity.
           ++ cbn; lia.
           ++ unfold candidates in *. cbn [firstn map filter app fst].
              now rewrite U, Hp.
           ++ destruct Hres as [(L & K & F) | (mb' & earlier & N & K & T & L & P & F)].
              ** left. repeat split; [assumption | cbn; lia |].
                 constructor; [|assumption]. unfold not_200. cbn. congruence.
              ** right. exists mb',
                   ((Member.replay_link mb, Response code) :: earlier).
                 repeat split; try assumption; try lia.
                 --- replace (S k - 1)%nat with (S (k - 1)) by lia. exact N.
                 --- now rewrite P.
                 --- constructor; [|assumption]. unfold not_200. cbn. congruence.
      * destruct (IH (LogError ("couldn't validate the replay URL "
                                ++ Member.replay_link mb ++ ", " ++ e)
                      :: HttpGet (Member.replay_link mb) (RequestException e)
                      :: tr))
          as (evs & k & Htr & Hk & Hp & Hres).
        exists (evs ++ [LogError ("couldn't validate the replay URL "
                                  ++ Member.replay_link mb ++ ", " ++ e);
                        HttpGet (Member.replay_link mb) (RequestException e)])%list,
               (S k).
        rewrite probes_app. cbn [probes rev flat_map app].
        repeat split.
        -- rewrite Htr, <- app_assoc. reflexivity.
        -- cbn; lia.
        -- unfold candidates in *. cbn [firstn map filter app fst].
           now rewrite U, Hp.
        -- destruct Hres as [(L & K & F) | (mb' & earlier & N & K & T & L & P & F)].
           ++ left. repeat split; [assumption | cbn; lia |].
              constructor; [|assumption]. unfold not_200. cbn. congruence.
           ++ right. exists mb',
                ((Member.replay_link mb, RequestException e) :: earlier).
              repeat split; try assumption; try lia.
              ** replace (S k - 1)%nat with (S (k - 1)) by lia. exact N.
              ** now rewrite P.
              ** constructor; [|assumption]. unfold not_200. cbn. congruence.
    + destruct (IH (LogError ("couldn't validate the replay URL "
                              ++ Member.replay_link mb ++ ", " ++ MissingSchema)
                    :: tr))
        as (evs & k & Htr & Hk & Hp & Hres).
      exists (evs ++ [LogError ("couldn't validate the replay URL "
                                ++ Member.replay_link mb ++ ", "
                                ++ MissingSchema)])%list,
             (S k).
      rewrite probes_app. cbn [probes rev flat_map app].
      repeat split.
      * rewrite Htr, <- app_assoc. reflexivity.
      * cbn; lia.
      * unfold candidates in *. cbn [firstn map filter].
        now rewrite U, Hp.
      * destruct Hres as [(L & K & F) | (mb' & earlier & N & K & T & L & P & F)].
        -- left. repeat split; [assumption | cbn; lia | assumption].
        -- right. exists mb', earlier.
           repeat split; try assumption; try lia.
           replace (S k - 1)%nat with (S (k - 1)) by lia. exact N.
Qed.

(** C3 (as amended): the resolver visits the members in input order and
    sends a network probe for each non-empty replay URL; a probe that
    raises or answers another status than 200 is passed over; the first
    probe answered with status 200 ends the search, no later member is
    probed, and the download line of that URL is returned; when no probe is
    answered with 200 every member has been visited and the result is
    [None].  No exception leaves the resolver. *)
Theorem set_record_link_first_200 :
  forall net_get (members : list Member.t) (tr : trace),
  exists evs k,
    snd (set_record_link net_get members tr) = (evs ++ tr)%list
    /\ (k <= List.length members)%nat
    /\ map fst (probes evs) = candidates k members
    /\ match fst (set_record_link net_get members tr) with
       | None => k = List.length members /\ Forall not_200 (probes evs)
       | Some line =>
           exists mb earlier,
             nth_error members (k - 1) = Some mb
             /\ (0 < k)%nat
             /\ line = download_line (Member.replay_link mb)
             /\ probes evs
                = (earlier ++ [(Member.replay_link mb, Response 200)])%list
             /\ Forall not_200 earlier
       end.
Proof.
  intros net_get members tr. unfold set_record_link.
  destruct (set_record_link_loop_spec net_get members
              (LogInfo "Looking for a valid record link" :: tr))
    as (evs & k & Htr & Hk & Hp & Hres).
  destruct (set_record_link_loop net_get members _) as [link tr'].
  cbn [fst snd] in *.
  exists (evs ++ [LogInfo "Looking for a valid record link"])%list, k.
  assert (P : probes (evs ++ [LogInfo "Looking for a valid record link"])%list
              = probes evs) by (rewrite probes_app; reflexivity).
  rewrite P.
  assert (T : snd (if Str.truthy link
                   then (Some (download_line link), tr') else (None, tr'))
              = ((evs ++ [LogInfo "Looking for a valid record link"]) ++ tr)%list).
  { rewrite <- app_assoc. now destruct (Str.truthy link). }
  repeat split; try assumption.
  destruct Hres as [(L & K & F) | (mb & earlier & N & K & U & L & Q & F)].
  - subst link. cbn. now split.
  - subst link. rewrite U. cbn [fst]. exists mb, earlier. now repeat split.
Qed.

Example set_record_link_second_of_four :
  let r := set_record_link SampleC3.net
             [SampleC3.unrecorded; SampleC3.first; SampleC3.second;
              SampleC3.third] [] in
  fst r = Some (download_line "https://replay/2")
  /\ probes (snd r)
     = [("https://replay/1", RequestException "connection refused");
        ("https://replay/2", Response 200)].
Proof. split; reflexivity. Qed.

(** C3 (counterexample): status 204 is a 2xx status, and a replay URL
    answered with it is not taken: the resolver returns no link. *)
Lemma set_record_link_204_no_link :
  let r := set_record_link (Sample.always 204) [SampleC3.first] [] in
  is_2xx 204 = true
  /\ probes (snd r) = [("https://replay/1", Response 204)]
  /\ fst r = None.
Proof. repeat split; reflexivity. Qed.

(* ================================================================= *)
(** ** Polling loop: diffing and dispatch *)

Lemma found_nonempty (prev : list TeamMatch.t) (n : TeamMatch.t) :
  In (match_id n) (map match_id prev) ->
  filter (fun p => Match.id (TeamMatch.match_ p)
                   =? Match.id (TeamMatch.match_ n)) prev <> [].
Proof.
  intros Hin E. apply in_map_iff in Hin as (p & Hid & Hp).
  assert (X : In p (filter (fun p => Match.id (TeamMatch.match_ p)
                                     =? Match.id (TeamMatch.match_ n)) prev)).
  { apply filter_In. split; [assumption|]. now apply Z.eqb_eq. }
  rewrite E in X. destruct X.
Qed.

Lemma found_empty (prev : list TeamMatch.t) (n : TeamMatch.t) :
  ~ In (match_id n) (map match_id prev) ->
  filter (fun p => Match.id (TeamMatch.match_ p)
                   =? Match.id (TeamMatch.match_ n)) prev = [].
Proof.
  intros Hnin.
  destruct (filter _ prev) as [|p l] eqn:E; [reflexivity|].
  exfalso. apply Hnin.
  assert (X : In p (filter (fun p => Match.id (TeamMatch.match_ p)
                                     =? Match.id (TeamMatch.match_ n)) prev))
    by (rewrite E; now left).
  apply filter_In in X as [Hp Hid]. apply Z.eqb_eq in Hid.
  apply in_map_iff. now exists p.
Qed.

Section Dispatch.

Variable net_get : trace -> string -> http_result.
Variable cli : trace -> list ConfigPlayer.t -> client_result.
Variable webhook : trace -> string -> Embed.t -> option string.
Variable players : list ConfigPlayer.t.

Local Abbreviation check := (check_results net_get webhook players).
Local Abbreviation turn := (tick net_get cli webhook players).
Local Abbreviation turns := (run_loop net_get cli webhook players).
Local Abbreviation fetch := (get_lastmatches cli players).

(** A match whose id is in the baseline is passed over. *)
Lemma check_results_seen prev n rest tr :
  In (match_id n) (map match_id prev) ->
  check prev (n :: rest) tr = check prev rest tr.
Proof.
  intros Hin. cbn [check_results].
  pose proof (found_nonempty prev n Hin) as F.
  destruct (filter _ prev); [contradiction | reflexivity].
Qed.

(** The matches of a snapshot are handled one after the other, and an
    exception ends the handling. *)
Lemma check_results_app prev l1 l2 tr :
  check prev (l1 ++ l2) tr
  = match check prev l1 tr with
    | (Ok _, tr1) => check prev l2 tr1
    | (Raise e, tr1) => (Raise e, tr1)
    end.
Proof.
  induction l1 as [|n l1 IH] in tr |- *; [reflexivity|].
  cbn [app check_results].
  destruct (filter _ prev); [|apply IH].
  destruct (MessageFormatter_init _ _ _ _) as [formatter tr1].
  destruct (webhook_send _ _ _ _) as [[u|e] tr2]; [apply IH | reflexivity].
Qed.

Lemma check_results_all_seen prev new tr :
  (forall n, In n new -> In (match_id n) (map match_id prev)) ->
  check prev new tr = (Ok tt, tr).
Proof.
  induction new as [|n new IH]; intros H; [reflexivity|].
  rewrite check_results_seen by (apply H; now left).
  apply IH. intros n' Hn'. apply H. now right.
Qed.

(** An exception of [check_results] or of the fetch leaves the loop. *)
Lemma run_loop_raise fuel prev tr e tr' :
  turn prev tr = (Raise e, tr') ->
  turns (S fuel) prev tr = (Raised e, tr').
Proof. intros H. cbn [run_loop]. now rewrite H. Qed.

(** The guard of [main] logs the exception that ended the loop. *)
Lemma main_logs_raise fuel tr e tr' :
  run net_get cli webhook players fuel (LogInfo "starting AoE Engine..." :: tr)
  = (Raised e, tr') ->
  main net_get cli webhook players fuel tr = (Returned, LogError e :: tr').
Proof. intros H. unfold main. now rewrite H. Qed.

Lemma get_lastmatches_never_None tr :
  fst (fetch tr) <> Ok None.
Proof.
  unfold get_lastmatches.
  destruct (cli tr players); cbn; discriminate.
Qed.

End Dispatch.

(** C5: a tick whose fetched snapshot is the baseline hands nothing to the
    webhook and keeps that snapshot as baseline; and a match whose id is in
    the baseline is passed over whatever else it holds: taking it out of
    the fetched snapshot changes neither the outcome nor the history of
    [check_results]. *)
Theorem check_results_seen_not_notified :
  forall net_get cli webhook players (prev : list TeamMatch.t),
    (forall tr,
        fst (get_lastmatches cli players (Sleep 50 :: tr)) = Ok (Some prev) ->
        fst (tick net_get cli webhook players prev tr) = Ok prev
        /\ sends (snd (tick net_get cli webhook players prev tr)) = sends tr)
    /\ (forall l1 n l2 tr,
           In (match_id n) (map match_id prev) ->
           check_results net_get webhook players prev (l1 ++ n :: l2) tr
           = check_results net_get webhook players prev (l1 ++ l2) tr).
Proof.
  intros net_get cli webhook players prev. split.
  - intros tr H. unfold tick.
    destruct (get_lastmatches cli players (Sleep 50 :: tr)) as [r tr1] eqn:G.
    cbn [fst] in H. subst r.
    rewrite check_results_all_seen by (intros n Hn; now apply in_map).
    cbn [fst snd]. split; [reflexivity|].
    unfold get_lastmatches in G.
    destruct (cli (Sleep 50 :: tr) players); inversion G; subst.
    unfold sends. cbn [rev]. rewrite !flat_map_app. cbn.
    now rewrite !app_nil_r.
  - intros l1 n l2 tr Hin.
    rewrite !check_results_app.
    destruct (check_results net_get webhook players prev l1 tr) as [[u|e] tr1];
      [|reflexivity].
    now apply check_results_seen.
Qed.

Lemma check_results_seen_not_notified_witness :
  sends (snd (tick Sample.offline SampleC5.cli SampleC5.webhook
                SampleC5.roster SampleC5.snapshot []))
  = [].
Proof.
  exact (proj2 (proj1 (check_results_seen_not_notified
                         Sample.offline SampleC5.cli SampleC5.webhook
                         SampleC5.roster SampleC5.snapshot) [] eq_refl)).
Defined.

(** C2 (as amended): a failing dispatch is not caught inside the tick.
    When the matches before [n] were handled without an exception, [n] is
    new, and the webhook raises [e] on the notification of [n], then
    [check_results] raises [e] at once: its history ends with that failed
    send, whatever matches [l2] follow, so none of them is classified,
    formatted or dispatched; and a tick that fetched this snapshot raises
    [e] as well, which ends the polling loop. *)
Theorem check_results_dispatch_failure_aborts :
  forall net_get cli webhook players
         (prev l1 l2 : list TeamMatch.t) (n : TeamMatch.t)
         (tr tr1 : trace) (e : string),
    check_results net_get webhook players prev l1 tr = (Ok tt, tr1) ->
    ~ In (match_id n) (map match_id prev) ->
    let started := LogInfo ("new finished match: " ++ versus_str n) :: tr1 in
    let formatter := fst (MessageFormatter_init net_get n players started) in
    let tr2 := snd (MessageFormatter_init net_get n players started) in
    let message := generate_message formatter in
    let embed := generate_embed formatter in
    webhook tr2 message embed = Some e ->
    check_results net_get webhook players prev (l1 ++ n :: l2) tr
    = (Raise e, WebhookSend message embed (Some e) :: tr2)
    /\ (forall tr0 fuel,
           get_lastmatches cli players (Sleep 50 :: tr0)
           = (Ok (Some (l1 ++ n :: l2)%list), tr) ->
           tick net_get cli webhook players prev tr0
           = (Raise e, WebhookSend message embed (Some e) :: tr2)
           /\ run_loop net_get cli webhook players (S fuel) prev tr0
              = (Raised e, WebhookSend message embed (Some e) :: tr2)).
Proof.
  intros net_get cli webhook players prev l1 l2 n tr tr1 e H1 Hnew
         started formatter tr2 message embed Hw.
  assert (C : check_results net_get webhook players prev (l1 ++ n :: l2) tr
              = (Raise e, WebhookSend message embed (Some e) :: tr2)).
  { rewrite check_results_app, H1. cbn [check_results].
    rewrite (found_empty prev n Hnew). fold started.
    subst formatter tr2 message embed.
    destruct (MessageFormatter_init net_get n players started)
      as [f t] eqn:I. cbn [fst snd] in *.
    unfold webhook_send. now rewrite Hw. }
  split; [exact C|].
  intros tr0 fuel G.
  assert (T : tick net_get cli webhook players prev tr0
              = (Raise e, WebhookSend message embed (Some e) :: tr2)).
  { unfold tick. now rewrite G, C. }
  split; [exact T | now apply run_loop_raise].
Qed.

Lemma check_results_dispatch_failure_aborts_witness :
  fst (check_results Sample.offline SampleC2.webhook SampleC2.roster
         [] ([] ++ SampleC2.first :: [SampleC2.second]) [])
  = Raise "HTTPException: 503".
Proof.
  refine (f_equal fst
            (proj1 (check_results_dispatch_failure_aborts
                      Sample.offline SampleC2.cli SampleC2.webhook
                      SampleC2.roster [] [] [SampleC2.second] SampleC2.first
                      [] [] "HTTPException: 503" eq_refl _ eq_refl))).
  intros [].
Defined.

(** C2 (counterexample): two new matches and a webhook that rejects the
    first notification only.  The exception leaves [check_results]; the one
    send in the history is the rejected one, and the second match is never
    dispatched, although its notification would have been accepted had the
    handling gone on from there. *)
Lemma check_results_second_match_dropped :
  let r := check_results Sample.offline SampleC2.flaky SampleC2.roster
             [] [SampleC2.first; SampleC2.second] [] in
  fst r = Raise "HTTPException: 503"
  /\ map (fun s => (fst (fst s), snd s)) (sends (snd r))
     = [("Alice is victorious.", Some "HTTPException: 503")]
  /\ fst (check_results Sample.offline SampleC2.flaky SampleC2.roster
            [] [SampleC2.second] (snd r))
     = Ok tt.
Proof. repeat split; reflexivity. Qed.

(** C9 (fails on the code): [Engine.run] keeps its baseline and goes on
    when [get_lastmatches] returns [None], but [get_lastmatches] never
    does: a client that raises makes it raise, and a client that returns
    [None] makes its [for] loop raise.  In both cases the tick raises and
    the polling loop ends; the failure is not logged by the loop and no
    next tick takes place. *)
Theorem tick_fetch_failure_ends_loop :
  forall net_get cli webhook players (prev : list TeamMatch.t) (tr : trace),
    (forall e fuel,
        cli (Sleep 50 :: tr) players = CliRaise e ->
        run_loop net_get cli webhook players (S fuel) prev tr
        = (Raised e, ClientFetch (CliRaise e) :: Sleep 50 :: tr))
    /\ (forall fuel,
           cli (Sleep 50 :: tr) players = CliNone ->
           run_loop net_get cli webhook players (S fuel) prev tr
           = (Raised TypeError_None, ClientFetch CliNone :: Sleep 50 :: tr))
    /\ fst (get_lastmatches cli players (Sleep 50 :: tr)) <> Ok None.
Proof.
  intros net_get cli webhook players prev tr. repeat split.
  - intros e fuel H. apply run_loop_raise.
    unfold tick, get_lastmatches. now rewrite H.
  - intros fuel H. apply run_loop_raise.
    unfold tick, get_lastmatches. now rewrite H.
  - apply get_lastmatches_never_None.
Qed.

Lemma tick_fetch_failure_ends_loop_witness :
  run_loop Sample.offline SampleC9.cli SampleC5.webhook SampleC5.roster
    3 SampleC5.snapshot []
  = (Raised "ConnectionError",
     [ClientFetch (CliRaise "ConnectionError"); Sleep 50]).
Proof.
  exact (proj1 (tick_fetch_failure_ends_loop
                  Sample.offline SampleC9.cli SampleC5.webhook SampleC5.roster
                  SampleC5.snapshot [])
           "ConnectionError" 2%nat eq_refl).
Defined.

(* ================================================================= *)
(** ** Team assembler: the sort *)

Lemma sorted_insert_perm team l : Permutation (sorted_insert team l) (team :: l).
Proof.
  induction l as [|t l IH]; cbn; [reflexivity|].
  destruct (Team.number team <=? Team.number t); [reflexivity|].
  rewrite IH. apply perm_swap.
Qed.

Lemma sorted_by_number_perm l : Permutation (sorted_by_number l) l.
Proof.
  induction l as [|t l IH]; cbn; [reflexivity|].
  rewrite sorted_insert_perm. now constructor.
Qed.

Lemma sorted_insert_sorted team l :
  StronglySorted number_le l -> StronglySorted number_le (sorted_insert team l).
Proof.
  induction 1 as [|t l S IH F]; cbn; [repeat constructor|].
  destruct (Z.leb_spec (Team.number team) (Team.number t)) as [L|L].
  - constructor; [now constructor|].
    constructor; [exact L|].
    eapply Forall_impl; [|exact F]. unfold number_le. intros; lia.
  - constructor; [exact IH|].
    apply (Permutation_Forall (Permutation_sym (sorted_insert_perm team l))).
    constructor; [unfold number_le; lia | exact F].
Qed.

Lemma sorted_by_number_sorted l : StronglySorted number_le (sorted_by_number l).
Proof.
  induction l as [|t l IH]; cbn; [constructor|].
  now apply sorted_insert_sorted.
Qed.

(** The sort is stable: teams with the same number keep their order. *)
Lemma sorted_insert_same k team l :
  Team.number team = k ->
  filter (fun t => Team.number t =? k) (sorted_insert team l)
  = team :: filter (fun t => Team.number t =? k) l.
Proof.
  intros E. induction l as [|t l IH]; cbn [sorted_insert filter].
  - destruct (Z.eqb_spec (Team.number team) k); [reflexivity | contradiction].
  - destruct (Z.leb_spec (Team.number team) (Team.number t)) as [L|L];
      cbn [filter].
    + destruct (Z.eqb_spec (Team.number team) k); [reflexivity | contradiction].
    + rewrite IH. destruct (Z.eqb_spec (Team.number t) k); [lia | reflexivity].
Qed.

Lemma sorted_insert_other k team l :
  Team.number team <> k ->
  filter (fun t => Team.number t =? k) (sorted_insert team l)
  = filter (fun t => Team.number t =? k) l.
Proof.
  intros NE. induction l as [|t l IH]; cbn [sorted_insert filter].
  - destruct (Z.eqb_spec (Team.number team) k); [contradiction | reflexivity].
  - destruct (Team.number team <=? Team.number t); cbn [filter].
    + destruct (Z.eqb_spec (Team.number team) k); [contradiction | reflexivity].
    + now rewrite IH.
Qed.

Lemma sorted_by_number_stable k l :
  filter (fun t => Team.number t =? k) (sorted_by_number l)
  = filter (fun t => Team.number t =? k) l.
Proof.
  induction l as [|t l IH]; [reflexivity|].
  cbn [sorted_by_number fold_right]. fold (sorted_by_number l).
  cbn [filter]. destruct (Z.eqb_spec (Team.number t) k) as [E|NE].
  - now rewrite (sorted_insert_same k t _ E), IH.
  - now rewrite (sorted_insert_other k t _ NE).
Qed.

(* ================================================================= *)
(** ** Team assembler: the grouping *)

Lemma set_teams_find_map mb teams :
  forall found,
    set_teams_find mb teams found
    = (map (with_member mb) teams, (found || existsb (joins mb) teams)%bool).
Proof.
  induction teams as [|t teams IH]; intros found; cbn [set_teams_find map existsb].
  - now rewrite orb_false_r.
  - unfold with_member at 1. fold (joins mb t).
    destruct (joins mb t); rewrite IH; cbn [orb].
    + now rewrite orb_true_r.
    + reflexivity.
Qed.

Lemma with_member_number mb t : Team.number (with_member mb t) = Team.number t.
Proof. unfold with_member. now destruct (joins mb t). Qed.

Lemma no_join_map mb teams :
  existsb (joins mb) teams = false -> map (with_member mb) teams = teams.
Proof.
  induction teams as [|t teams IH]; [reflexivity|].
  cbn [existsb map]. intros H. apply orb_false_iff in H as [H1 H2].
  unfold with_member at 1. now rewrite H1, IH.
Qed.

Lemma set_teams_step_eq teams mb :
  set_teams_step teams mb
  = if existsb (joins mb) teams then map (with_member mb) teams
    else (teams ++ [singleton_team mb])%list.
Proof.
  unfold set_teams_step. rewrite set_teams_find_map. cbn [orb].
  destruct (existsb (joins mb) teams) eqn:E; [reflexivity|].
  now rewrite (no_join_map _ _ E).
Qed.

Lemma grouped_snoc members mb :
  grouped (members ++ [mb]) = set_teams_step (grouped members) mb.
Proof. unfold grouped. now rewrite fold_left_app. Qed.

Lemma joins_iff mb t :
  joins mb t = true <-> 0 <= Member.teamid mb /\ Team.number t = Member.teamid mb.
Proof.
  unfold joins. rewrite andb_true_iff, Z.eqb_eq.
  destruct (Z.gtb_spec (Member.teamid mb) (-1)); split; intros [A B];
    split; try assumption; try lia; try discriminate.
Qed.

Lemma existsb_joins_iff mb teams :
  existsb (joins mb) teams = true
  <-> 0 <= Member.teamid mb /\ In (Member.teamid mb) (map Team.number teams).
Proof.
  rewrite existsb_exists. split.
  - intros (t & Ht & J). apply joins_iff in J as [A B]. split; [assumption|].
    rewrite <- B. now apply in_map.
  - intros [A Hin]. apply in_map_iff in Hin as (t & E & Ht).
    exists t. split; [assumption|]. now apply joins_iff.
Qed.

Lemma numbered_with_member mb teams :
  map Team.number (filter numbered (map (with_member mb) teams))
  = map Team.number (filter numbered teams).
Proof.
  induction teams as [|t teams IH]; [reflexivity|].
  cbn [map filter].
  replace (numbered (with_member mb t)) with (numbered t)
    by (unfold numbered; now rewrite with_member_number).
  destruct (numbered t); cbn [map]; now rewrite ?with_member_number, IH.
Qed.

Lemma unnumbered_with_member mb teams :
  filter unnumbered (map (with_member mb) teams) = filter unnumbered teams.
Proof.
  induction teams as [|t teams IH]; [reflexivity|].
  cbn [map filter].
  replace (unnumbered (with_member mb t)) with (unnumbered t)
    by (unfold unnumbered; now rewrite with_member_number).
  destruct (unnumbered t) eqn:U; [|exact IH].
  rewrite IH. f_equal. unfold with_member.
  destruct (joins mb t) eqn:J; [|reflexivity].
  apply joins_iff in J. unfold unnumbered in U. apply Z.ltb_lt in U. lia.
Qed.

(** When the numbered teams have distinct numbers, a member joins one
    team only. *)
Lemma with_member_perm mb teams :
  NoDup (map Team.number (filter numbered teams)) ->
  existsb (joins mb) teams = true ->
  Permutation (flat_map Team.members (map (with_member mb) teams))
              (flat_map Team.members teams ++ [mb]).
Proof.
  induction teams as [|t teams IH]; intros ND Ex; [discriminate|].
  cbn [map flat_map existsb] in *.
  unfold with_member at 1. destruct (joins mb t) eqn:J.
  - apply joins_iff in J as [A B].
    assert (N : numbered t = true) by (unfold numbered; apply Z.leb_le; lia).
    cbn [filter] in ND. rewrite N in ND. cbn [map] in ND.
    inversion ND as [|? ? Hnin ND']; subst.
    assert (E : existsb (joins mb) teams = false).
    { destruct (existsb (joins mb) teams) eqn:X; [|reflexivity].
      exfalso. apply Hnin. apply existsb_exists in X as (t' & Ht' & J').
      apply joins_iff in J' as [A' B'].
      rewrite B, <- B'. apply in_map. apply filter_In. split; [assumption|].
      unfold numbered. apply Z.leb_le. lia. }
    rewrite (no_join_map _ _ E). cbn [Team.members].
    rewrite <- !app_assoc. apply Permutation_app_head, Permutation_app_comm.
  - cbn [orb] in Ex. rewrite <- app_assoc. apply Permutation_app_head.
    apply IH; [|assumption].
    cbn [filter] in ND. destruct (numbered t); [|assumption].
    now inversion ND.
Qed.

Lemma filter_snoc {A} (f : A -> bool) (l : list A) (x : A) :
  filter f (l ++ [x]) = (filter f l ++ if f x then [x] else [])%list.
Proof. rewrite filter_app. reflexivity. Qed.

Lemma grouping_nil : grouping [] [].
Proof.
  constructor; cbn; try constructor; intros; contradiction.
Qed.

Lemma grouping_step members teams mb :
  grouping members teams ->
  grouping (members ++ [mb]) (set_teams_step teams mb).
Proof.
  intros [Hnum Hun Hdis Hcov Hperm].
  rewrite set_teams_step_eq.
  destruct (existsb (joins mb) teams) eqn:Ex.
  - (* the member joins the team with its number *)
    pose proof (proj1 (existsb_joins_iff mb teams) Ex) as [Hpos Hin].
    assert (NT : no_team mb = false)
      by (unfold no_team; apply Z.ltb_ge; lia).
    constructor.
    + intros t' Ht' Hn. apply in_map_iff in Ht' as (t & <- & Ht).
      rewrite with_member_number in *. rewrite filter_snoc.
      unfold with_member.
      destruct (joins mb t) eqn:J.
      * apply joins_iff in J as [_ B]. cbn [Team.members].
        rewrite (Hnum t Ht Hn).
        assert (S : same_team (Team.number t) mb = true)
          by (unfold same_team; apply Z.eqb_eq; congruence).
        now rewrite S.
      * rewrite (Hnum t Ht Hn).
        assert (S : same_team (Team.number t) mb = false).
        { unfold same_team. apply Z.eqb_neq. intros E.
          assert (joins mb t = true) by (apply joins_iff; split; congruence).
          congruence. }
        rewrite S. now rewrite app_nil_r.
    + rewrite unnumbered_with_member, filter_snoc, Hun, NT.
      now rewrite app_nil_r.
    + now rewrite numbered_with_member.
    + intros mb' Hmb' Hn.
      rewrite map_map.
      rewrite (map_ext _ Team.number (with_member_number mb)).
      apply in_app_or in Hmb' as [H|[<-|[]]]; [now apply Hcov | assumption].
    + rewrite (with_member_perm mb teams Hdis Ex).
      now apply Permutation_app_tail.
  - (* the member starts a team *)
    assert (Hnew : 0 <= Member.teamid mb ->
                   ~ In (Member.teamid mb) (map Team.number teams)).
    { intros Hpos Hin.
      assert (existsb (joins mb) teams = true)
        by (apply existsb_joins_iff; now split).
      congruence. }
    constructor.
    + intros t Ht Hn. rewrite filter_snoc.
      apply in_app_or in Ht as [Ht|[<-|[]]].
      * rewrite (Hnum t Ht Hn).
        assert (S : same_team (Team.number t) mb = false).
        { unfold same_team. apply Z.eqb_neq. intros E.
          apply Hnew; [lia|]. rewrite E. now apply in_map. }
        rewrite S. now rewrite app_nil_r.
      * cbn [singleton_team Team.members Team.number] in *.
        assert (S : same_team (Member.teamid mb) mb = true)
          by (unfold same_team; apply Z.eqb_refl).
        rewrite S.
        replace (filter (same_team (Member.teamid mb)) members) with
          (@nil Member.t); [reflexivity|].
        symmetry.
        destruct (filter (same_team (Member.teamid mb)) members)
          as [|x l] eqn:F; [reflexivity|].
        assert (X : In x (filter (same_team (Member.teamid mb)) members))
          by (rewrite F; now left).
        apply filter_In in X as [Hx S']. unfold same_team in S'.
        apply Z.eqb_eq in S'.
        exfalso. apply (Hnew Hn). rewrite <- S'. apply Hcov; [assumption | lia].
    + rewrite !filter_snoc, Hun, map_app.
      replace (unnumbered (singleton_team mb)) with (no_team mb)
        by reflexivity.
      now destruct (no_team mb).
    + rewrite filter_snoc, map_app.
      destruct (numbered (singleton_team mb)) eqn:N;
        [|cbn [map]; now rewrite app_nil_r].
      unfold numbered in N. cbn [singleton_team Team.number] in N.
      apply Z.leb_le in N.
      cbn [map singleton_team Team.number].
      apply NoDup_app; [assumption | repeat constructor; intros [] |].
      intros k Hk [<-|[]]. apply (Hnew N).
      apply in_map_iff in Hk as (t & E & Ht). apply filter_In in Ht as [Ht _].
      rewrite <- E. now apply in_map.
    + intros mb' Hmb' Hn. rewrite map_app. apply in_or_app.
      apply in_app_or in Hmb' as [H|[<-|[]]].
      * left. now apply Hcov.
      * right. now left.
    + rewrite flat_map_app. cbn [flat_map singleton_team Team.members app].
      now apply Permutation_app_tail.
Qed.

Lemma grouped_grouping members : grouping members (grouped members).
Proof.
  induction members as [|mb members IH] using rev_ind.
  - exact grouping_nil.
  - rewrite grouped_snoc. now apply grouping_step.
Qed.

(* ================================================================= *)
(** ** Team assembler: the result *)

Lemma filter_perm {A} (f : A -> bool) (l l' : list A) :
  Permutation l l' -> Permutation (filter f l) (filter f l').
Proof.
  induction 1 as [|x l l' P IH|x y l|l l' l'' P1 IH1 P2 IH2]; cbn.
  - constructor.
  - destruct (f x); [now constructor | assumption].
  - destruct (f x), (f y); try reflexivity. apply perm_swap.
  - now transitivity (filter f l').
Qed.

Lemma set_teams_In members t :
  In t (set_teams members) <-> In t (grouped members).
Proof.
  unfold set_teams. fold (grouped members). split; apply Permutation_in.
  - apply sorted_by_number_perm.
  - apply Permutation_sym, sorted_by_number_perm.
Qed.

(** A team with a non-negative number holds the members with that team
    id, in their input order. *)
Lemma set_teams_numbered members t :
  In t (set_teams members) -> 0 <= Team.number t ->
  Team.members t = filter (same_team (Team.number t)) members.
Proof.
  intros Ht. apply set_teams_In in Ht.
  now apply (grouping_numbered _ _ (grouped_grouping members)).
Qed.

(** The teams with a negative number [k] are the members with team id [k],
    each alone, in their input order. *)
Lemma set_teams_unnumbered members k :
  k < 0 ->
  filter (fun t => Team.number t =? k) (set_teams members)
  = map singleton_team (filter (same_team k) members).
Proof.
  intros Hk. unfold set_teams. fold (grouped members).
  rewrite sorted_by_number_stable.
  assert (A : forall teams,
             filter (fun t => Team.number t =? k) teams
             = filter (fun t => Team.number t =? k) (filter unnumbered teams)).
  { induction teams as [|t teams IH]; [reflexivity|]. cbn [filter].
    destruct (unnumbered t) eqn:U; cbn [filter];
      destruct (Z.eqb_spec (Team.number t) k) as [E|NE];
      rewrite ?IH; try reflexivity.
    unfold unnumbered in U. apply Z.ltb_ge in U. lia. }
  assert (B : forall l,
             filter (fun t => Team.number t =? k) (map singleton_team l)
             = map singleton_team (filter (same_team k) l)).
  { induction l as [|mb l IH]; [reflexivity|]. cbn [map filter].
    replace (Team.number (singleton_team mb) =? k) with (same_team k mb)
      by reflexivity.
    destruct (same_team k mb); cbn [map]; now rewrite IH. }
  assert (C : forall l,
             filter (same_team k) (filter no_team l) = filter (same_team k) l).
  { induction l as [|mb l IH]; [reflexivity|]. cbn [filter].
    destruct (no_team mb) eqn:N; cbn [filter];
      destruct (same_team k mb) eqn:S; rewrite ?IH; try reflexivity.
    unfold no_team in N. unfold same_team in S.
    apply Z.ltb_ge in N. apply Z.eqb_eq in S. lia. }
  rewrite A, (grouping_unnumbered _ _ (grouped_grouping members)), B.
  now rewrite C.
Qed.

Lemma set_teams_distinct members :
  NoDup (map Team.number (filter numbered (set_teams members))).
Proof.
  unfold set_teams. fold (grouped members).
  eapply Permutation_NoDup;
    [|exact (grouping_distinct _ _ (grouped_grouping members))].
  apply Permutation_map, filter_perm, Permutation_sym, sorted_by_number_perm.
Qed.

Lemma sorted_team_before teams :
  StronglySorted number_le teams ->
  NoDup (map Team.number (filter numbered teams)) ->
  StronglySorted team_before teams.
Proof.
  induction 1 as [|t teams S IH F]; intros ND; [constructor|].
  cbn [filter] in ND.
  constructor.
  - apply IH. destruct (numbered t); [now inversion ND | assumption].
  - rewrite Forall_forall in F |- *. intros u Hu.
    specialize (F u Hu). unfold number_le in F. unfold team_before.
    destruct (Z.eq_dec (Team.number t) (Team.number u)) as [E|NE]; [|lia].
    destruct (Z.ltb_spec (Team.number t) 0) as [L|L]; [right; now split|].
    exfalso.
    assert (N : numbered t = true) by (unfold numbered; now apply Z.leb_le).
    rewrite N in ND. cbn [map] in ND. inversion ND as [|? ? Hnin _]; subst.
    apply Hnin. rewrite E. apply in_map. apply filter_In. split; [assumption|].
    unfold numbered. apply Z.leb_le. lia.
Qed.

(** C8: the teams partition the member list: their members, put together,
    are the input members with their multiplicities; and two members with
    the same non-negative team id are in one team, which holds exactly the
    members with that id. *)
Theorem set_teams_partition :
  forall members : list Member.t,
    Permutation (flat_map Team.members (set_teams members)) members
    /\ (forall a b,
           In a members -> In b members ->
           0 <= Member.teamid a -> Member.teamid a = Member.teamid b ->
           exists t,
             In t (set_teams members)
             /\ Team.number t = Member.teamid a
             /\ Team.members t = filter (same_team (Member.teamid a)) members
             /\ In a (Team.members t) /\ In b (Team.members t)).
Proof.
  intros members. split.
  - unfold set_teams. fold (grouped members).
    rewrite (Permutation_flat_map _ (sorted_by_number_perm (grouped members))).
    exact (grouping_perm _ _ (grouped_grouping members)).
  - intros a b Ha Hb Hpos Hab.
    pose proof (grouping_covers _ _ (grouped_grouping members) a Ha Hpos) as C.
    apply in_map_iff in C as (t & E & Ht).
    apply set_teams_In in Ht.
    pose proof (set_teams_numbered members t Ht) as M.
    rewrite E in M. specialize (M Hpos).
    exists t. repeat split; try assumption.
    + rewrite M. apply filter_In. split; [assumption|]. apply Z.eqb_refl.
    + rewrite M. apply filter_In. split; [assumption|].
      unfold same_team. apply Z.eqb_eq. congruence.
Qed.

Lemma set_teams_partition_witness :
  exists t,
    In t (set_teams SampleC8.members)
    /\ Team.number t = 1
    /\ Team.members t = [Sample.alice; Sample.bob]
    /\ In Sample.alice (Team.members t) /\ In Sample.bob (Team.members t).
Proof.
  refine (proj2 (set_teams_partition SampleC8.members)
            Sample.alice Sample.bob _ _ _ eq_refl).
  - cbn; tauto.
  - cbn; tauto.
  - cbn; lia.
Defined.

(** C4 (as amended): every member with a negative team id gets a team of
    its own: the teams with a negative number [k] are the singleton teams
    of the members with team id [k], in input order, and a team that holds
    such a member holds nothing else.  The result is ascending by team
    number: of two teams, the earlier has the smaller number, or both have
    the same negative number. *)
Theorem set_teams_order :
  forall members : list Member.t,
    (forall k, k < 0 ->
               filter (fun t => Team.number t =? k) (set_teams members)
               = map singleton_team (filter (same_team k) members))
    /\ (forall t mb,
           In t (set_teams members) -> In mb (Team.members t) ->
           Member.teamid mb < 0 -> t = singleton_team mb)
    /\ StronglySorted team_before (set_teams members).
Proof.
  intros members. repeat split.
  - intros k Hk. now apply set_teams_unnumbered.
  - intros t mb Ht Hmb Hneg.
    destruct (Z.ltb_spec (Team.number t) 0) as [L|L].
    + assert (X : In t (filter (fun u => Team.number u =? Team.number t)
                          (set_teams members))).
      { apply filter_In. split; [assumption | apply Z.eqb_refl]. }
      rewrite (set_teams_unnumbered members _ L) in X.
      apply in_map_iff in X as (mb' & <- & _).
      cbn in Hmb. destruct Hmb as [->|[]]. reflexivity.
    + rewrite (set_teams_numbered members t Ht L) in Hmb.
      apply filter_In in Hmb as [_ S]. unfold same_team in S.
      apply Z.eqb_eq in S. lia.
  - apply sorted_team_before.
    + apply sorted_by_number_sorted.
    + apply set_teams_distinct.
Qed.

Lemma set_teams_order_witness :
  filter (fun t => Team.number t =? -1) (set_teams SampleC4.members)
  = [singleton_team SampleC4.erin; singleton_team SampleC4.frank].
Proof.
  refine (proj1 (set_teams_order SampleC4.members) (-1) _). lia.
Defined.

(** C4 (counterexample): two members with team id -1 form two singleton
    teams, both numbered -1, so the team numbers are not strictly
    ascending. *)
Lemma set_teams_not_strictly_ascending :
  set_teams [SampleC4.erin; SampleC4.frank]
  = [singleton_team SampleC4.erin; singleton_team SampleC4.frank]
  /\ ~ strictly_ascending (set_teams [SampleC4.erin; SampleC4.frank]).
Proof.
  split; [reflexivity|].
  unfold strictly_ascending. cbn. intros H.
  inversion H as [|? ? _ F]; subst.
  inversion F as [|? ? L _]; subst. lia.
Qed.


(* ================================================================= *)
(** ** String-building loops are joins *)

(** The recurring index loop appends the items joined by the separator. *)
Lemma join_loop_concat (sep : string) (xs : list string) :
  forall len i s,
    len = i + Z.of_nat (List.length xs) ->
    join_loop sep len i xs s = (s ++ String.concat sep xs)%string.
Proof.
  induction xs as [|x rest IH]; intros len i s Hlen.
  - cbn. now rewrite str_app_nil_r.
  - cbn [join_loop String.concat]. cbn [List.length] in Hlen.
    rewrite Nat2Z.inj_succ in Hlen.
    destruct rest as [|y rest'].
    + cbn [List.length] in Hlen.
      destruct (Z.ltb_spec i (len - 1)); [lia|]. reflexivity.
    + cbn [List.length] in Hlen. rewrite Nat2Z.inj_succ in Hlen.
      destruct (Z.ltb_spec i (len - 1)); [|lia].
      rewrite (IH len (i + 1)) by (cbn [List.length]; lia).
      now rewrite !str_app_assoc.
Qed.

Lemma versus_str_loop_concat (teams : list Team.t) :
  forall len i s,
    len = i + Z.of_nat (List.length teams) ->
    versus_str_loop len i teams s
    = (s ++ String.concat " vs "
              (map (fun team => String.concat ", " (aliases team)) teams))%string.
Proof.
  induction teams as [|t rest IH]; intros len i s Hlen.
  - cbn. now rewrite str_app_nil_r.
  - cbn [versus_str_loop map String.concat]. cbn [List.length] in Hlen.
    rewrite Nat2Z.inj_succ in Hlen.
    rewrite (join_loop_concat ", " _ _ 0 s)
      by (rewrite length_map; lia).
    fold (aliases t).
    destruct rest as [|u rest'].
    + cbn [List.length] in Hlen.
      destruct (Z.ltb_spec i (len - 1)); [lia|]. reflexivity.
    + cbn [List.length] in Hlen. rewrite Nat2Z.inj_succ in Hlen.
      destruct (Z.ltb_spec i (len - 1)); [|lia].
      rewrite (IH len (i + 1)) by (cbn [List.length]; lia).
      cbn [map]. now rewrite !str_app_assoc.
Qed.

(** X1: [versus_str] lists the aliases of each team separated by ", " and
    the teams separated by " vs "; a match without teams gives the empty
    string. *)
Theorem versus_str_concat :
  forall self : TeamMatch.t,
    versus_str self
    = String.concat " vs "
        (map (fun team => String.concat ", " (aliases team))
             (TeamMatch.teams self)).
Proof.
  intros self. unfold versus_str.
  now rewrite (versus_str_loop_concat _ _ 0 "") by lia.
Qed.

Lemma set_title_join (teams : list Team.t) (mapname : string)
    (is_ranked : bool) :
  set_title teams mapname is_ranked
  = ((if is_ranked then "Ranked " else "")
     ++ String.concat " vs " (map team_size teams)
     ++ " on " ++ Str.capitalize (Str.before "." mapname))%string.
Proof.
  unfold set_title.
  rewrite (join_loop_concat " vs " _ _ 0) by (rewrite length_map; lia).
  fold team_size. now rewrite !str_app_assoc.
Qed.

(** X2: the title is "Ranked " for a ranked match and nothing otherwise,
    then the member counts of the teams joined by " vs ", then " on " and
    the map name cut at its first dot and capitalized. *)
Theorem set_title_concat :
  forall (teams : list Team.t) (mapname : string) (is_ranked : bool),
    set_title teams mapname is_ranked
    = ((if is_ranked then "Ranked " else "")
       ++ String.concat " vs " (map team_size teams)
       ++ " on " ++ Str.capitalize (Str.before "." mapname))%string.
Proof. exact set_title_join. Qed.

Lemma prefix_app (s t : string) : String.prefix s (s ++ t) = true.
Proof.
  induction s as [|a s IH]; cbn; [now destruct t|].
  destruct (ascii_dec a a); [exact IH | contradiction].
Qed.

Lemma of_nat_first_char (n : nat) :
  exists c r, Str.of_nat n = String c r /\ c <> "R"%char.
Proof.
  unfold Str.of_nat, Str.of_Z, NilZero.string_of_int, Z.to_int.
  destruct (Z.of_nat n) as [|p|p].
  - cbn. eexists _, _. split; [reflexivity | discriminate].
  - unfold NilZero.string_of_uint.
    destruct (Pos.to_uint p); cbn; eexists _, _;
      (split; [reflexivity | discriminate]).
  - eexists _, _. split; [reflexivity | discriminate].
Qed.

(** X3: the title starts with "Ranked " exactly when the match is ranked:
    an unranked title starts with a member count or, without teams, with
    " on ". *)
Theorem set_title_ranked_prefix :
  forall (teams : list Team.t) (mapname : string) (is_ranked : bool),
    String.prefix "Ranked " (set_title teams mapname is_ranked) = is_ranked.
Proof.
  intros teams mapname is_ranked. rewrite set_title_join.
  destruct is_ranked; [apply prefix_app|].
  cbn [append].
  destruct teams as [|t rest]; [reflexivity|].
  cbn [map String.concat].
  destruct (of_nat_first_char (List.length (Team.members t)))
    as (c & r & E & Hc).
  assert (P : forall tail, String.prefix "Ranked " (String c tail) = false).
  { intros tail.
    change (String.prefix "Ranked " (String c tail))
      with (if ascii_dec "R" c then String.prefix "anked " tail else false).
    destruct (ascii_dec "R" c); [congruence | reflexivity]. }
  change (team_size t) with (Str.of_nat (List.length (Team.members t))).
  destruct (map team_size rest); rewrite E; cbn [append]; apply P.
Qed.


(* ================================================================= *)
(** ** Player lines *)

Lemma last_char_app (s t : string) :
  t <> "" -> last_char (s ++ t) = last_char t.
Proof.
  intros Ht. induction s as [|c s IH]; [reflexivity|].
  cbn [append last_char]. rewrite IH.
  destruct (s ++ t)%string eqn:E; [|reflexivity].
  destruct s; cbn in E; [contradiction | discriminate].
Qed.

Lemma format_player_name_shape (member : Member.t) :
  format_player_name member
  = (player_flag member ++ player_link member
     ++ if Member.outcome member >? 0 then " :crown:" else "")%string.
Proof.
  unfold format_player_name, player_flag, player_link.
  destruct (Profile.country (Member.profile member)) as [c|];
    [destruct (Str.truthy c)|];
    destruct (Member.outcome member >? 0);
    repeat first [rewrite str_app_assoc | rewrite str_app_nil_r
                 | progress cbn [append]];
    reflexivity.
Qed.

Lemma prefix_cons_eq a s t :
  String.prefix (String a s) (String a t) = String.prefix s t.
Proof.
  change (String.prefix (String a s) (String a t))
    with (if ascii_dec a a then String.prefix s t else false).
  destruct (ascii_dec a a); [reflexivity | contradiction].
Qed.

Lemma prefix_cons_neq a b s t :
  a <> b -> String.prefix (String a s) (String b t) = false.
Proof.
  intros N.
  change (String.prefix (String a s) (String b t))
    with (if ascii_dec a b then String.prefix s t else false).
  destruct (ascii_dec a b); [contradiction | reflexivity].
Qed.

(** X4: a member line starts with the flag indicator exactly when the
    country of the member is known (neither [None] nor empty), and with
    the globe indicator exactly when it is not. *)
Theorem format_player_name_indicator :
  forall member : Member.t,
    String.prefix ":flag_" (format_player_name member) = has_country member
    /\ String.prefix ":globe_with_meridians: " (format_player_name member)
       = negb (has_country member).
Proof.
  intros member. rewrite format_player_name_shape.
  unfold player_flag, has_country.
  destruct (Profile.country (Member.profile member)) as [c|];
    [destruct (Str.truthy c)|]; cbn [negb]; split.
  - rewrite !str_app_assoc. apply prefix_app.
  - cbn [append]. rewrite prefix_cons_eq. now apply prefix_cons_neq.
  - cbn [append]. rewrite prefix_cons_eq. now apply prefix_cons_neq.
  - apply prefix_app.
  - cbn [append]. rewrite prefix_cons_eq. now apply prefix_cons_neq.
  - apply prefix_app.
Qed.

(** X5: a member line ends with the crown indicator exactly when the
    outcome of the member is positive. *)
Theorem format_player_name_crown :
  forall member : Member.t,
    (exists line, format_player_name member = (line ++ " :crown:")%string)
    <-> 0 < Member.outcome member.
Proof.
  intros member. rewrite format_player_name_shape. split.
  - intros [line E].
    destruct (Z.gtb_spec (Member.outcome member) 0) as [G|G]; [lia|].
    exfalso.
    assert (L : last_char (player_flag member ++ player_link member ++ "")
                = Some ")"%char).
    { rewrite str_app_nil_r. unfold player_link.
      rewrite <- !str_app_assoc.
      rewrite last_char_app; [reflexivity | discriminate]. }
    rewrite E, last_char_app in L by discriminate.
    discriminate L.
  - intros G.
    destruct (Z.gtb_spec (Member.outcome member) 0) as [_|L]; [|lia].
    exists (player_flag member ++ player_link member)%string.
    now rewrite str_app_assoc.
Qed.

(* ================================================================= *)
(** ** Notification body *)

Lemma format_inline_desc_loop_spec (teams : list Team.t) :
  forall len it embed,
    len = it + Z.of_nat (List.length teams) ->
    format_inline_desc_loop len it teams embed
    = Embed.mk (Embed.color embed) (Embed.title embed)
        (Embed.fields embed
         ++ inline_fields (member_lines format_player_name Str.newline)
              it teams).
Proof.
  induction teams as [|t rest IH]; intros len it embed Hlen.
  - cbn. rewrite app_nil_r. now destruct embed.
  - cbn [format_inline_desc_loop inline_fields]. cbn [List.length] in Hlen.
    rewrite Nat2Z.inj_succ in Hlen.
    rewrite (join_loop_concat Str.newline _ _ 0 "")
      by (rewrite length_map; lia).
    change ("" ++ String.concat Str.newline
                    (map format_player_name (Team.members t)))%string
      with (member_lines format_player_name Str.newline t).
    destruct rest as [|u rest'].
    + cbn [List.length] in Hlen.
      destruct (Z.ltb_spec it (len - 1)); [lia|]. reflexivity.
    + cbn [List.length] in Hlen. rewrite Nat2Z.inj_succ in Hlen.
      destruct (Z.ltb_spec it (len - 1)); [|lia].
      rewrite (IH len (it + 1)) by (cbn [List.length]; lia).
      unfold Embed.add_field. cbn [Embed.color Embed.title Embed.fields].
      now rewrite <- !app_assoc.
Qed.

Lemma inline_fields_length value it (teams : list Team.t) :
  teams <> [] ->
  List.length (inline_fields value it teams)
  = (2 * List.length teams - 1)%nat.
Proof.
  induction teams as [|t rest IH] in it |- *; intros Hne; [contradiction|].
  cbn [inline_fields List.length].
  destruct rest as [|u rest']; [reflexivity|].
  cbn [List.length]. rewrite (IH (it + 1)) by discriminate.
  cbn [List.length]. lia.
Qed.

(** X6: for any number of teams, [format_inline_desc] appends to the embed
    one inline field per team, named "Team 1", "Team 2", ..., that lists
    the member lines of the team on separate lines, with an empty inline
    spacer field after every team but the last; for n > 0 teams these are
    2n - 1 fields.  Colour, title and the earlier fields are kept. *)
Theorem format_inline_desc_fields :
  forall (embed : Embed.t) (teams : list Team.t),
    format_inline_desc embed teams
    = Embed.mk (Embed.color embed) (Embed.title embed)
        (Embed.fields embed
         ++ inline_fields (member_lines format_player_name Str.newline)
              0 teams)
    /\ (teams <> [] ->
        List.length (Embed.fields (format_inline_desc embed teams))
        = (List.length (Embed.fields embed) + 2 * List.length teams - 1)%nat).
Proof.
  intros embed teams.
  assert (E := format_inline_desc_loop_spec teams
                 (Z.of_nat (List.length teams)) 0 embed eq_refl).
  unfold format_inline_desc. split; [exact E|].
  intros Hne. rewrite E. cbn [Embed.fields].
  rewrite length_app, (inline_fields_length _ _ _ Hne).
  destruct teams; [contradiction | cbn [List.length]; lia].
Qed.

Lemma format_inline_desc_fields_witness :
  List.length
    (Embed.fields
       (format_inline_desc (Embed.mk 0 "" [])
          (set_teams [Sample.alice; Sample.bob; Sample.carol])))
  = 3%nat.
Proof.
  refine (proj2 (format_inline_desc_fields (Embed.mk 0 "" [])
                   (set_teams [Sample.alice; Sample.bob; Sample.carol])) _).
  discriminate.
Defined.

Lemma format_multiline_desc_loop_concat (teams : list Team.t) :
  forall len it desc,
    len = it + Z.of_nat (List.length teams) ->
    format_multiline_desc_loop len it teams desc
    = (desc ++ String.concat versus_marker
                 (map (member_lines format_player_name ", ") teams))%string.
Proof.
  induction teams as [|t rest IH]; intros len it desc Hlen.
  - cbn. now rewrite str_app_nil_r.
  - cbn [format_multiline_desc_loop map String.concat].
    cbn [List.length] in Hlen. rewrite Nat2Z.inj_succ in Hlen.
    rewrite (join_loop_concat ", " _ _ 0 desc)
      by (rewrite length_map; lia).
    fold (member_lines format_player_name ", " t).
    destruct rest as [|u rest'].
    + cbn [List.length] in Hlen.
      destruct (Z.ltb_spec it (len - 1)); [lia|]. reflexivity.
    + cbn [List.length] in Hlen. rewrite Nat2Z.inj_succ in Hlen.
      destruct (Z.ltb_spec it (len - 1)); [|lia].
      rewrite (IH len (it + 1)) by (cbn [List.length]; lia).
      cbn [map]. fold versus_marker. now rewrite !str_app_assoc.
Qed.

(** X7: the embed carries the colour and the title of the formatter.  With
    exactly two teams its fields are "Team 1", a spacer, "Team 2" and the
    links; with any other number of teams they are one field, which holds
    the teams' member lines joined by ", " within a team and by the
    "Versus" marker between teams, and the links.  That one field is added
    with the name [None], which the embed stores as the text "None"; the
    links field and the spacer have the empty name.  The links field is
    the last one: the insights line, followed on a new line by the replay
    line when the resolver found one. *)
Theorem generate_embed_fields :
  forall self : MessageFormatter.t,
    Embed.color (generate_embed self) = MessageFormatter.color self
    /\ Embed.title (generate_embed self) = MessageFormatter.title self
    /\ (forall a b,
           MessageFormatter.teams self = [a; b] ->
           Embed.fields (generate_embed self)
           = [ Embed.mk_field (Some "Team 1")
                 (member_lines format_player_name Str.newline a) true;
               Embed.mk_field (Some "") "" true;
               Embed.mk_field (Some "Team 2")
                 (member_lines format_player_name Str.newline b) true;
               Embed.mk_field (Some "") (link_lines self) false ])
    /\ (List.length (MessageFormatter.teams self) <> 2%nat ->
        Embed.fields (generate_embed self)
        = [ Embed.mk_field (Some "None")
              (String.concat versus_marker
                 (map (member_lines format_player_name ", ")
                      (MessageFormatter.teams self))) false;
            Embed.mk_field (Some "") (link_lines self) false ]).
Proof.
  intros self. unfold generate_embed.
  assert (L : match MessageFormatter.record_link self with
              | Some record_link =>
                  (MessageFormatter.insights_link self ++ Str.newline
                   ++ record_link)%string
              | None => MessageFormatter.insights_link self
              end = link_lines self) by reflexivity.
  rewrite L. clear L.
  repeat split.
  - destruct (negb _); [reflexivity|].
    unfold format_inline_desc. now rewrite format_inline_desc_loop_spec.
  - destruct (negb _); [reflexivity|].
    unfold format_inline_desc. now rewrite format_inline_desc_loop_spec.
  - intros a b E. rewrite E. cbn [List.length Nat.eqb negb].
    unfold format_inline_desc.
    rewrite format_inline_desc_loop_spec by reflexivity. reflexivity.
  - intros N.
    destruct (Nat.eqb_spec (List.length (MessageFormatter.teams self)) 2);
      [contradiction|]. cbn [negb].
    unfold format_multiline_desc.
    rewrite (format_multiline_desc_loop_concat _ _ 0 "") by lia.
    reflexivity.
Qed.

Lemma generate_embed_fields_witness :
  List.length
    (Embed.fields
       (generate_embed
          (fst (MessageFormatter_init Sample.offline SampleC7.lost
                  SampleC7.roster []))))
  = 4%nat.
Proof.
  refine (f_equal (@List.length _)
            (proj1 (proj2 (proj2 (generate_embed_fields
               (fst (MessageFormatter_init Sample.offline SampleC7.lost
                       SampleC7.roster [])))))
               _ _ eq_refl)).
Defined.

(* ================================================================= *)
(** ** Classification: further properties *)

(** X8: [is_ranked_game] answers [True] exactly for the twelve ids of its
    table, id 0 ("Unranked") included, and [False] for every other id; the
    lookup failure of an unknown id never surfaces. *)
Theorem is_ranked_game_table :
  forall matchtype_id : Z,
    is_ranked_game matchtype_id
    = existsb (Z.eqb matchtype_id) (map fst Gametypes).
Proof.
  intros matchtype_id.
  destruct (is_ranked_game matchtype_id) eqn:R.
  - apply is_ranked_game_true_iff in R. symmetry. apply existsb_exists.
    exists matchtype_id. split; [exact R | apply Z.eqb_refl].
  - symmetry. apply not_true_is_false. intros Ex.
    apply existsb_exists in Ex as (k & Hk & E). apply Z.eqb_eq in E. subst k.
    apply (proj2 (is_ranked_game_true_iff matchtype_id)) in Hk. congruence.
Qed.

(** X9: the formatter reports a victory exactly when the match is not a
    training match and some teammate has a positive outcome; a training
    match is never a victory, whatever the outcomes. *)
Theorem clan_is_winner_iff :
  forall net_get (m : TeamMatch.t) (roster : list ConfigPlayer.t) (tr : trace),
    let self := fst (MessageFormatter_init net_get m roster tr) in
    MessageFormatter.is_victory self = true
    <-> MessageFormatter.is_training self = false
        /\ exists t, In t (MessageFormatter.teammates self)
                     /\ 0 < Member.outcome t.
Proof.
  intros net_get m roster tr self. unfold self.
  rewrite init_is_victory, andb_true_iff, negb_true_iff, existsb_exists.
  split; intros [T (t & Ht & O)]; (split; [exact T|]); exists t;
    (split; [exact Ht|]).
  - destruct (Z.gtb_spec (Member.outcome t) 0); [lia | discriminate].
  - destruct (Z.gtb_spec (Member.outcome t) 0); [reflexivity | lia].
Qed.

Lemma init_color net_get (m : TeamMatch.t) roster tr :
  MessageFormatter.color (fst (MessageFormatter_init net_get m roster tr))
  = if MessageFormatter.is_training
         (fst (MessageFormatter_init net_get m roster tr))
    then 7506394
    else if existsb (fun t => Member.outcome t >? 0)
              (MessageFormatter.teammates
                 (fst (MessageFormatter_init net_get m roster tr)))
         then 5089895
         else 10961731.
Proof.
  assert (C : MessageFormatter.color
                (fst (MessageFormatter_init net_get m roster tr))
              = set_color
                  (MessageFormatter.is_training
                     (fst (MessageFormatter_init net_get m roster tr)))
                  (MessageFormatter.is_victory
                     (fst (MessageFormatter_init net_get m roster tr)))
                  (MessageFormatter.is_training
                     (fst (MessageFormatter_init net_get m roster tr)))
                  (MessageFormatter.is_victory
                     (fst (MessageFormatter_init net_get m roster tr)))).
  { unfold MessageFormatter_init.
    destruct (clan_is_winner _ _ _) as [v tr1].
    destruct (set_record_link _ _ _) as [l tr2]. reflexivity. }
  rewrite C, init_is_victory. unfold set_color.
  now destruct (MessageFormatter.is_training _).
Qed.

(** X10: the colour of the formatter is 7506394 (blue) for a training
    match, whatever the outcomes; otherwise 5089895 (green) when some
    teammate has a positive outcome and 10961731 (red) when none has. *)
Theorem set_color_classification :
  forall net_get (m : TeamMatch.t) (roster : list ConfigPlayer.t) (tr : trace),
    let self := fst (MessageFormatter_init net_get m roster tr) in
    MessageFormatter.color self
    = if MessageFormatter.is_training self then 7506394
      else if existsb (fun t => Member.outcome t >? 0)
                (MessageFormatter.teammates self)
           then 5089895
           else 10961731.
Proof. intros net_get m roster tr. exact (init_color net_get m roster tr). Qed.

Lemma roster_entries_flat_map roster (mb : Member.t) :
  flat_map (fun clan_player =>
              if Profile.id (Member.profile mb)
                 =? ConfigPlayer.profileId clan_player
              then [mb] else []) roster
  = repeat mb (roster_entries roster mb).
Proof.
  unfold roster_entries. induction roster as [|p r IH]; [reflexivity|].
  cbn [flat_map filter].
  destruct (Profile.id (Member.profile mb) =? ConfigPlayer.profileId p);
    cbn [List.length repeat app]; now rewrite IH.
Qed.

(** X11: the teammates of a match with exactly two teams are its members
    in their order, each repeated once per roster entry that carries its
    profile id: a member outside the roster is left out and a member whose
    id the roster lists twice occurs twice.  A match with another number
    of teams has no teammates. *)
Theorem extract_clan_teammates_entries :
  forall (m : TeamMatch.t) (roster : list ConfigPlayer.t),
    extract_clan_teammates m roster
    = if Nat.eqb (List.length (TeamMatch.teams m)) 2
      then flat_map (fun mb => repeat mb (roster_entries roster mb))
             (Match.members (TeamMatch.match_ m))
      else [].
Proof.
  intros m roster. unfold extract_clan_teammates.
  destruct (Nat.eqb _ 2); [|reflexivity].
  apply flat_map_ext. intros mb. apply roster_entries_flat_map.
Qed.

(** X12: when the profile ids of the roster are pairwise distinct, the
    teammates of a match with two teams are exactly the members whose
    profile id is in the roster, in their order and without repetition. *)
Theorem extract_clan_teammates_distinct_roster :
  forall (m : TeamMatch.t) (roster : list ConfigPlayer.t),
    NoDup (map ConfigPlayer.profileId roster) ->
    List.length (TeamMatch.teams m) = 2%nat ->
    extract_clan_teammates m roster
    = filter (in_roster roster) (Match.members (TeamMatch.match_ m)).
Proof.
  intros m roster ND H2.
  rewrite (extract_clan_teammates_NoDup m roster ND).
  unfold spec_teammates. now rewrite H2.
Qed.

Lemma extract_clan_teammates_distinct_roster_witness :
  extract_clan_teammates SampleC7.lost SampleC7.roster
  = filter (in_roster SampleC7.roster)
      (Match.members (TeamMatch.match_ SampleC7.lost)).
Proof.
  refine (extract_clan_teammates_distinct_roster
            SampleC7.lost SampleC7.roster _ eq_refl).
  repeat constructor; cbn; intuition discriminate.
Defined.

(** X13: with pairwise distinct roster profile ids, a match with exactly
    two teams all of whose members are roster players is a training match,
    whatever the outcomes: it is no victory, its colour is blue and its
    header is "Match results.". *)
Theorem internal_match_is_training :
  forall net_get (m : TeamMatch.t) (roster : list ConfigPlayer.t) (tr : trace),
    NoDup (map ConfigPlayer.profileId roster) ->
    List.length (TeamMatch.teams m) = 2%nat ->
    (forall mb, In mb (Match.members (TeamMatch.match_ m)) ->
                in_roster roster mb = true) ->
    let self := fst (MessageFormatter_init net_get m roster tr) in
    MessageFormatter.is_training self = true
    /\ MessageFormatter.is_victory self = false
    /\ MessageFormatter.color self = 7506394
    /\ generate_message self = "Match results.".
Proof.
  intros net_get m roster tr ND H2 Hall self.
  assert (T : MessageFormatter.is_training self = true).
  { unfold self. rewrite init_is_training.
    rewrite (extract_clan_teammates_NoDup m roster ND).
    unfold spec_teammates, is_training_game. rewrite H2. cbn [Nat.eqb].
    replace (filter (in_roster roster) (Match.members (TeamMatch.match_ m)))
      with (Match.members (TeamMatch.match_ m)).
    - now rewrite Nat.eqb_refl.
    - symmetry. apply forallb_filter_id. apply forallb_forall. exact Hall. }
  repeat split.
  - exact T.
  - unfold self in *. rewrite init_is_victory, T. reflexivity.
  - pose proof (init_color net_get m roster tr) as C.
    fold self in C. now rewrite T in C.
  - unfold generate_message. now rewrite T.
Qed.

Lemma internal_match_is_training_witness :
  generate_message
    (fst (MessageFormatter_init Sample.offline SampleC7.lost
            SampleX13.roster []))
  = "Match results.".
Proof.
  refine (proj2 (proj2 (proj2 (internal_match_is_training
            Sample.offline SampleC7.lost SampleX13.roster [] _ eq_refl _)))).
  - repeat constructor; cbn; intuition discriminate.
  - intros mb [<-|[<-|[<-|[<-|[]]]]]; reflexivity.
Defined.

(* ================================================================= *)
(** ** Team assembler: further properties *)

Lemma grouped_nonempty members :
  forall t, In t (grouped members) -> Team.members t <> [].
Proof.
  induction members as [|mb members IH] using rev_ind; [intros t []|].
  intros t. rewrite grouped_snoc, set_teams_step_eq.
  destruct (existsb (joins mb) (grouped members)).
  - intros Ht. apply in_map_iff in Ht as (u & <- & Hu).
    unfold with_member. destruct (joins mb u); [|now apply IH].
    cbn [Team.members]. intros E. now apply app_eq_nil in E as [_ E].
  - intros Ht. apply in_app_or in Ht as [Ht|[<-|[]]];
      [now apply IH | discriminate].
Qed.

Lemma set_teams_member_id members t mb :
  In t (set_teams members) -> In mb (Team.members t) ->
  Member.teamid mb = Team.number t.
Proof.
  intros Ht Hmb. destruct (Z.ltb_spec (Team.number t) 0) as [L|L].
  - assert (X : In t (filter (fun u => Team.number u =? Team.number t)
                        (set_teams members))).
    { apply filter_In. split; [assumption | apply Z.eqb_refl]. }
    rewrite (set_teams_unnumbered members _ L) in X.
    apply in_map_iff in X as (mb' & <- & _).
    cbn in Hmb. destruct Hmb as [->|[]]. reflexivity.
  - rewrite (set_teams_numbered members t Ht L) in Hmb.
    apply filter_In in Hmb as [_ S]. now apply Z.eqb_eq in S.
Qed.

Lemma flat_map_length_ge (teams : list Team.t) :
  (forall t, In t teams -> Team.members t <> []) ->
  (List.length teams <= List.length (flat_map Team.members teams))%nat.
Proof.
  induction teams as [|t teams IH]; intros H; [reflexivity|].
  cbn [flat_map List.length]. rewrite length_app.
  assert (Team.members t <> []) by (apply H; now left).
  assert (List.length teams <= List.length (flat_map Team.members teams))%nat
    by (apply IH; intros u Hu; apply H; now right).
  destruct (Team.members t); [contradiction | cbn [List.length]; lia].
Qed.

(** X14: no team of the result is empty, every member of a team carries
    the number of the team as its team id, and there are at most as many
    teams as members; in particular an empty member list gives no team. *)
Theorem set_teams_teams :
  forall members : list Member.t,
    (forall t, In t (set_teams members) ->
               Team.members t <> []
               /\ forall mb, In mb (Team.members t) ->
                             Member.teamid mb = Team.number t)
    /\ (List.length (set_teams members) <= List.length members)%nat.
Proof.
  intros members.
  assert (NE : forall t, In t (set_teams members) -> Team.members t <> []).
  { intros t Ht. apply set_teams_In in Ht. now apply (grouped_nonempty members). }
  split.
  - intros t Ht. split; [now apply NE|].
    intros mb Hmb. now apply (set_teams_member_id members).
  - rewrite (flat_map_length_ge _ NE).
    apply Nat.eq_le_incl, Permutation_length.
    unfold set_teams. fold (grouped members).
    rewrite (Permutation_flat_map _ (sorted_by_number_perm (grouped members))).
    exact (grouping_perm _ _ (grouped_grouping members)).
Qed.

Lemma set_teams_teams_witness :
  Team.members (singleton_team SampleC4.erin) <> []
  /\ forall mb, In mb (Team.members (singleton_team SampleC4.erin)) ->
                Member.teamid mb = Team.number (singleton_team SampleC4.erin).
Proof.
  refine (proj1 (set_teams_teams SampleC4.members)
            (singleton_team SampleC4.erin) _).
  cbn. tauto.
Defined.

Lemma unnumbered_negb (t : Team.t) : unnumbered t = negb (numbered t).
Proof. unfold unnumbered, numbered. apply Z.ltb_antisym. Qed.

Lemma filter_split_perm {A} (f g : A -> bool) (l : list A) :
  (forall x, g x = negb (f x)) ->
  Permutation l (filter f l ++ filter g l).
Proof.
  intros H. induction l as [|x l IH]; [constructor|].
  cbn [filter]. rewrite H. destruct (f x); cbn [negb app].
  - now constructor.
  - now apply Permutation_cons_app.
Qed.

(** The non-negative team numbers of the result are the non-negative team
    ids of the members. *)
Lemma set_teams_numbered_numbers members k :
  In k (map Team.number (filter numbered (set_teams members)))
  <-> 0 <= k /\ exists mb, In mb members /\ Member.teamid mb = k.
Proof.
  split.
  - intros Hk. apply in_map_iff in Hk as (t & <- & Ht).
    apply filter_In in Ht as [Ht N]. unfold numbered in N.
    apply Z.leb_le in N. split; [assumption|].
    pose proof (set_teams_numbered members t Ht N) as M.
    assert (NE : Team.members t <> [])
      by (apply (grouped_nonempty members); now apply set_teams_In).
    destruct (Team.members t) as [|mb l] eqn:E; [contradiction|].
    assert (X : In mb (filter (same_team (Team.number t)) members))
      by (rewrite <- M; now left).
    apply filter_In in X as [Hmb S]. apply Z.eqb_eq in S. now exists mb.
  - intros [Hk (mb & Hmb & <-)].
    pose proof (grouping_covers _ _ (grouped_grouping members) mb Hmb Hk) as C.
    apply in_map_iff in C as (t & E & Ht).
    apply in_map_iff. exists t. split; [assumption|].
    apply filter_In. split; [now apply set_teams_In|].
    unfold numbered. apply Z.leb_le. lia.
Qed.

Lemma set_teams_unnumbered_numbers members :
  Permutation (map Team.number (filter unnumbered (set_teams members)))
              (map Member.teamid (filter no_team members)).
Proof.
  unfold set_teams. fold (grouped members).
  rewrite (filter_perm unnumbered _ _ (sorted_by_number_perm (grouped members))).
  rewrite (grouping_unnumbered _ _ (grouped_grouping members)).
  rewrite map_map. reflexivity.
Qed.

Lemma set_teams_numbers_perm members members' :
  Permutation members members' ->
  Permutation (map Team.number (set_teams members))
              (map Team.number (set_teams members')).
Proof.
  intros P.
  rewrite (filter_split_perm numbered unnumbered (set_teams members)
             unnumbered_negb).
  rewrite (filter_split_perm numbered unnumbered (set_teams members')
             unnumbered_negb).
  rewrite !map_app. apply Permutation_app.
  - apply NoDup_Permutation; try apply set_teams_distinct.
    intros k. rewrite !set_teams_numbered_numbers.
    split; intros [Hk (mb & Hmb & E)]; (split; [assumption|]); exists mb;
      (split; [|assumption]).
    + now apply (Permutation_in _ P).
    + now apply (Permutation_in _ (Permutation_sym P)).
  - rewrite !set_teams_unnumbered_numbers.
    now apply Permutation_map, filter_perm.
Qed.

Lemma sorted_perm_eq (l l' : list Z) :
  StronglySorted Z.le l -> StronglySorted Z.le l' ->
  Permutation l l' -> l = l'.
Proof.
  intros S. revert l'. induction S as [|a l S IH F]; intros l' S' P.
  - now apply Permutation_nil in P.
  - destruct S' as [|b l' S' F'].
    + apply Permutation_sym, Permutation_nil in P. discriminate.
    + rewrite Forall_forall in F, F'.
      assert (a = b).
      { assert (Ha : In a (b :: l'))
          by (apply (Permutation_in _ P); now left).
        assert (Hb : In b (a :: l))
          by (apply (Permutation_in _ (Permutation_sym P)); now left).
        destruct Ha as [->|Ha]; [reflexivity|].
        destruct Hb as [->|Hb]; [reflexivity|].
        specialize (F b Hb). specialize (F' a Ha). lia. }
      subst b. f_equal. apply IH; [assumption|].
      now apply Permutation_cons_inv in P.
Qed.

Lemma set_teams_numbers_sorted members :
  StronglySorted Z.le (map Team.number (set_teams members)).
Proof.
  unfold set_teams.
  induction (sorted_by_number_sorted (fold_left set_teams_step members []))
    as [|t l S IH F]; cbn [map]; constructor; [assumption|].
  rewrite Forall_forall in *. intros k Hk.
  apply in_map_iff in Hk as (u & <- & Hu). now apply F.
Qed.

(** The size of a team is determined by its number. *)
Lemma set_teams_size members t :
  In t (set_teams members) ->
  List.length (Team.members t)
  = if Team.number t <? 0 then 1%nat
    else team_count members (Team.number t).
Proof.
  intros Ht. destruct (Z.ltb_spec (Team.number t) 0) as [L|L].
  - assert (X : In t (filter (fun u => Team.number u =? Team.number t)
                        (set_teams members))).
    { apply filter_In. split; [assumption | apply Z.eqb_refl]. }
    rewrite (set_teams_unnumbered members _ L) in X.
    apply in_map_iff in X as (mb' & <- & _). reflexivity.
  - now rewrite (set_teams_numbered members t Ht L).
Qed.

(** X15: the team numbers and the team sizes of the result, and with them
    the title, do not depend on the order in which the members are
    listed. *)
Theorem set_teams_order_independent :
  forall members members' : list Member.t,
    Permutation members members' ->
    map Team.number (set_teams members)
    = map Team.number (set_teams members')
    /\ map (fun t => List.length (Team.members t)) (set_teams members)
       = map (fun t => List.length (Team.members t)) (set_teams members')
    /\ forall mapname is_ranked,
         set_title (set_teams members) mapname is_ranked
         = set_title (set_teams members') mapname is_ranked.
Proof.
  intros members members' P.
  assert (N : map Team.number (set_teams members)
              = map Team.number (set_teams members')).
  { apply sorted_perm_eq; try apply set_teams_numbers_sorted.
    now apply set_teams_numbers_perm. }
  assert (Z : forall ms,
             map (fun t => List.length (Team.members t)) (set_teams ms)
             = map (fun k => if k <? 0 then 1%nat else team_count ms k)
                 (map Team.number (set_teams ms))).
  { intros ms. rewrite map_map. apply map_ext_in.
    intros t Ht. now apply set_teams_size. }
  assert (S : map (fun t => List.length (Team.members t)) (set_teams members)
              = map (fun t => List.length (Team.members t))
                  (set_teams members')).
  { rewrite !Z, N. apply map_ext. intros k.
    destruct (k <? 0); [reflexivity|]. unfold team_count.
    now apply Permutation_length, filter_perm. }
  repeat split; try assumption.
  intros mapname is_ranked. rewrite !set_title_join. do 2 f_equal.
  unfold team_size.
  rewrite <- !(map_map (fun t => List.length (Team.members t)) Str.of_nat).
  now rewrite S.
Qed.

Lemma set_teams_order_independent_witness :
  map Team.number (set_teams [Sample.carol; Sample.alice; Sample.dave])
  = map Team.number (set_teams [Sample.alice; Sample.dave; Sample.carol]).
Proof.
  refine (proj1 (set_teams_order_independent
                   [Sample.carol; Sample.alice; Sample.dave]
                   [Sample.alice; Sample.dave; Sample.carol] _)).
  apply (Permutation_cons_app [_; _] []). reflexivity.
Defined.

(* ================================================================= *)
(** ** Polling loop: further properties *)

Lemma sends_cons (ev : event) (tr : trace) :
  sends (ev :: tr)
  = (sends tr ++ match ev with
                 | WebhookSend content embed r => [(content, embed, r)]
                 | _ => []
                 end)%list.
Proof.
  unfold sends. cbn [rev]. rewrite flat_map_app. cbn [flat_map].
  now rewrite app_nil_r.
Qed.

Lemma sends_set_record_link_loop net_get members :
  forall tr, sends (snd (set_record_link_loop net_get members tr)) = sends tr.
Proof.
  induction members as [|mb rest IH]; intros tr; [reflexivity|].
  cbn [set_record_link_loop]. unfold requests_get.
  destruct (Str.truthy (Member.replay_link mb)).
  - destruct (net_get tr (Member.replay_link mb)) as [code|e].
    + destruct (code =? 200).
      * cbn [snd]. rewrite !sends_cons. now rewrite !app_nil_r.
      * rewrite IH, sends_cons. now rewrite app_nil_r.
    + rewrite IH, !sends_cons. now rewrite !app_nil_r.
  - rewrite IH, sends_cons. now rewrite app_nil_r.
Qed.

(** Building a formatter sends nothing. *)
Lemma sends_init net_get (n : TeamMatch.t) players tr :
  sends (snd (MessageFormatter_init net_get n players tr)) = sends tr.
Proof.
  unfold MessageFormatter_init.
  destruct (clan_is_winner _ _ tr) as [v tr1] eqn:W.
  assert (S1 : sends tr1 = sends tr).
  { unfold clan_is_winner in W.
    destruct (is_training_game _ _ _);
      [|destruct (Z.of_nat _ >? 0)]; inversion W; subst;
      rewrite sends_cons; now rewrite app_nil_r. }
  unfold set_record_link.
  pose proof (sends_set_record_link_loop net_get
                (Match.members (TeamMatch.match_ n))
                (LogInfo "Looking for a valid record link" :: tr1)) as S2.
  destruct (set_record_link_loop _ _ _) as [link tr2]. cbn [snd] in S2.
  rewrite sends_cons, app_nil_r in S2.
  destruct (Str.truthy link); cbn [snd]; congruence.
Qed.

(** The header depends on the match and the roster only, not on the
    network or the history. *)
Lemma generate_message_init net_get net_get' (n : TeamMatch.t) players tr tr' :
  generate_message (fst (MessageFormatter_init net_get n players tr))
  = generate_message (fst (MessageFormatter_init net_get' n players tr')).
Proof.
  unfold generate_message.
  rewrite !init_is_victory, !init_is_training, !init_teammates.
  reflexivity.
Qed.

Lemma found_is_new (prev : list TeamMatch.t) (n : TeamMatch.t) :
  is_new prev n = true
  <-> filter (fun p => Match.id (TeamMatch.match_ p)
                       =? Match.id (TeamMatch.match_ n)) prev = [].
Proof.
  unfold is_new, match_id. rewrite negb_true_iff.
  induction prev as [|p prev IH]; [cbn; tauto|].
  cbn [existsb filter].
  destruct (Match.id (TeamMatch.match_ p) =? Match.id (TeamMatch.match_ n));
    cbn [orb]; [split; discriminate | exact IH].
Qed.

Lemma check_results_accepting :
  forall net_get webhook players (prev new : list TeamMatch.t) (tr : trace),
    (forall tr' content embed, webhook tr' content embed = None) ->
    fst (check_results net_get webhook players prev new tr) = Ok tt
    /\ sent_contents (snd (check_results net_get webhook players prev new tr))
       = (sent_contents tr
          ++ map (fun n => generate_message
                             (fst (MessageFormatter_init net_get n players [])))
                 (filter (is_new prev) new))%list.
Proof.
  intros net_get webhook players prev new tr Hw. revert tr.
  induction new as [|n rest IH]; intros tr.
  - cbn. now rewrite app_nil_r.
  - cbn [check_results filter].
    destruct (is_new prev n) eqn:N.
    + rewrite (proj1 (found_is_new prev n) N).
      destruct (MessageFormatter_init net_get n players
                  (LogInfo ("new finished match: " ++ versus_str n) :: tr))
        as [formatter tr1] eqn:I.
      unfold webhook_send. rewrite Hw.
      destruct (IH (WebhookSend (generate_message formatter)
                      (generate_embed formatter) None :: tr1)) as [R S].
      split; [exact R|]. rewrite S.
      unfold sent_contents at 1. rewrite sends_cons, map_app.
      fold (sent_contents tr1). cbn [map fst app].
      assert (S1 : sent_contents tr1 = sent_contents tr).
      { unfold sent_contents.
        replace tr1 with (snd (MessageFormatter_init net_get n players
                  (LogInfo ("new finished match: " ++ versus_str n) :: tr)))
          by now rewrite I.
        rewrite sends_init, sends_cons. now rewrite app_nil_r. }
      rewrite S1, <- app_assoc. cbn [app]. do 2 f_equal.
      replace formatter with (fst (MessageFormatter_init net_get n players
                  (LogInfo ("new finished match: " ++ versus_str n) :: tr)))
        by now rewrite I.
      apply generate_message_init.
    + destruct (filter _ prev) as [|p l] eqn:F; [|apply IH].
      apply (proj2 (found_is_new prev n)) in F. congruence.
Qed.

(** X16: when the webhook accepts every notification, [check_results]
    ends without an exception and hands over exactly one notification per
    match of the fetched snapshot whose id is not in the baseline, in the
    order of the snapshot; the text of each is the header of its match. *)
Theorem check_results_dispatches_new :
  forall net_get webhook players (prev new : list TeamMatch.t) (tr : trace),
    (forall tr' content embed, webhook tr' content embed = None) ->
    fst (check_results net_get webhook players prev new tr) = Ok tt
    /\ sent_contents (snd (check_results net_get webhook players prev new tr))
       = (sent_contents tr
          ++ map (fun n => generate_message
                             (fst (MessageFormatter_init net_get n players [])))
                 (filter (is_new prev) new))%list.
Proof. exact check_results_accepting. Qed.

Lemma check_results_dispatches_new_witness :
  sent_contents
    (snd (check_results Sample.offline SampleC5.webhook SampleC7.roster
            [SampleC7.duel] [SampleC7.duel; SampleC7.lost] []))
  = ["Alice and Bob have been defeated."].
Proof.
  refine (proj2 (check_results_dispatches_new
                   Sample.offline SampleC5.webhook SampleC7.roster
                   [SampleC7.duel] [SampleC7.duel; SampleC7.lost] [] _)).
  reflexivity.
Defined.

(** X17: [check_results] uses the baseline through its match ids only:
    two baselines with the same ids give the same outcome and the same
    history, whatever else their matches hold. *)
Theorem check_results_baseline_ids :
  forall net_get webhook players (prev prev' new : list TeamMatch.t)
         (tr : trace),
    (forall k, In k (map match_id prev) <-> In k (map match_id prev')) ->
    check_results net_get webhook players prev new tr
    = check_results net_get webhook players prev' new tr.
Proof.
  intros net_get webhook players prev prev' new tr H. revert tr.
  induction new as [|n rest IH]; intros tr; [reflexivity|].
  destruct (in_dec Z.eq_dec (match_id n) (map match_id prev)) as [Hin|Hnin].
  - rewrite !check_results_seen; [apply IH | now apply H | assumption].
  - assert (Hnin' : ~ In (match_id n) (map match_id prev'))
      by (intros X; now apply Hnin, H).
    cbn [check_results].
    rewrite (found_empty prev n Hnin), (found_empty prev' n Hnin').
    destruct (MessageFormatter_init _ _ _ _) as [formatter tr1].
    destruct (webhook_send _ _ _ _) as [[u|e] tr2]; [apply IH | reflexivity].
Qed.

Lemma check_results_baseline_ids_witness :
  check_results Sample.offline SampleC5.webhook SampleC7.roster
    [SampleC7.duel] [SampleC7.duel; SampleC7.lost] []
  = check_results Sample.offline SampleC5.webhook SampleC7.roster
      [Sample.game 42 []] [SampleC7.duel; SampleC7.lost] [].
Proof.
  refine (check_results_baseline_ids
            Sample.offline SampleC5.webhook SampleC7.roster
            [SampleC7.duel] [Sample.game 42 []]
            [SampleC7.duel; SampleC7.lost] [] _).
  intros k. reflexivity.
Defined.

Lemma tick_same_snapshot net_get cli webhook players matches tr :
  cli (Sleep 50 :: tr) players = CliMatches matches ->
  tick net_get cli webhook players (snapshot_of matches) tr
  = (Ok (snapshot_of matches),
     LogInfo "matches refreshed" :: ClientFetch (CliMatches matches)
     :: Sleep 50 :: tr).
Proof.
  intros H. unfold tick, get_lastmatches. rewrite H.
  fold (snapshot_of matches).
  rewrite check_results_all_seen by (intros n Hn; now apply in_map).
  reflexivity.
Qed.

Lemma run_loop_static net_get cli webhook players matches :
  (forall tr, cli tr players = CliMatches matches) ->
  forall fuel tr,
  exists tr',
    run_loop net_get cli webhook players fuel (snapshot_of matches) tr
    = (Looping (snapshot_of matches), tr')
    /\ sends tr' = sends tr.
Proof.
  intros H fuel. induction fuel as [|fuel IH]; intros tr.
  - exists tr. now split.
  - cbn [run_loop]. rewrite (tick_same_snapshot _ _ _ _ _ _ (H _)).
    destruct (IH (LogInfo "matches refreshed"
                  :: ClientFetch (CliMatches matches) :: Sleep 50 :: tr))
      as (tr' & R & S).
    exists tr'. split; [exact R|].
    rewrite S, !sends_cons. now rewrite !app_nil_r.
Qed.

(** X18: while the client keeps answering with the same matches, the loop
    never hands anything to the webhook, however many turns it takes: the
    matches present at startup are the baseline and are not notified. *)
Theorem run_static_history_silent :
  forall net_get cli webhook players (matches : list Match.t),
    (forall tr, cli tr players = CliMatches matches) ->
    forall fuel tr,
      fst (run net_get cli webhook players fuel tr)
      = Looping (snapshot_of matches)
      /\ sends (snd (run net_get cli webhook players fuel tr)) = sends tr.
Proof.
  intros net_get cli webhook players matches H fuel tr.
  unfold run, get_lastmatches. rewrite H. fold (snapshot_of matches).
  destruct (run_loop_static net_get cli webhook players matches H fuel
              (LogInfo "recent matches initialized"
               :: ClientFetch (CliMatches matches) :: tr))
    as (tr' & R & S).
  rewrite R. cbn [fst snd]. split; [reflexivity|].
  rewrite S, !sends_cons. now rewrite !app_nil_r.
Qed.

Lemma run_static_history_silent_witness :
  sends (snd (run Sample.offline SampleC5.cli SampleC2.webhook
                SampleC5.roster 5 []))
  = [].
Proof.
  refine (proj2 (run_static_history_silent
                   Sample.offline SampleC5.cli SampleC2.webhook
                   SampleC5.roster _ _ 5%nat [])).
  reflexivity.
Defined.

(** X19: when the first fetch fails, because the client raises or returns
    [None], [main] logs the exception and returns: the loop is never
    entered, nothing is sent and the process does not sleep. *)
Theorem main_startup_failure :
  forall net_get cli webhook players (fuel : nat) (tr : trace),
    let started := LogInfo "starting AoE Engine..." :: tr in
    (forall e,
        cli started players = CliRaise e ->
        main net_get cli webhook players fuel tr
        = (Returned, LogError e :: ClientFetch (CliRaise e) :: started))
    /\ (cli started players = CliNone ->
        main net_get cli webhook players fuel tr
        = (Returned,
           LogError TypeError_None :: ClientFetch CliNone :: started)).
Proof.
  intros net_get cli webhook players fuel tr started. split.
  - intros e H. unfold main, run, get_lastmatches. fold started.
    now rewrite H.
  - intros H. unfold main, run, get_lastmatches. fold started.
    now rewrite H.
Qed.

Lemma main_startup_failure_witness :
  main Sample.offline SampleC9.cli SampleC5.webhook SampleC5.roster 7 []
  = (Returned,
     [LogError "ConnectionError"; ClientFetch (CliRaise "ConnectionError");
      LogInfo "starting AoE Engine..."]).
Proof.
  exact (proj1 (main_startup_failure Sample.offline SampleC9.cli
                  SampleC5.webhook SampleC5.roster 7 [])
           "ConnectionError" eq_refl).
Defined.

(* ================================================================= *)
(** ** Record link resolver on a network that does not change *)

Lemma set_record_link_loop_find (answer : string -> http_result) members :
  forall tr,
    fst (set_record_link_loop (fun _ => answer) members tr)
    = match find (fun url => (Str.truthy url && answers_200 (answer url))%bool)
              (map Member.replay_link members) with
      | Some url => url
      | None => ""
      end.
Proof.
  induction members as [|mb rest IH]; intros tr; [reflexivity|].
  cbn [set_record_link_loop map find]. unfold requests_get.
  destruct (Str.truthy (Member.replay_link mb)); cbn [andb]; [|apply IH].
  destruct (answer (Member.replay_link mb)) as [code|e];
    cbn [answers_200]; [|apply IH].
  destruct (code =? 200); [reflexivity | apply IH].
Qed.

(** X20: on a network whose answers depend on the URL only, the resolver
    returns the download line of the first non-empty replay URL, in member
    order, that is answered with status 200, and [None] when there is
    none. *)
Theorem set_record_link_find :
  forall (answer : string -> http_result) (members : list Member.t)
         (tr : trace),
    fst (set_record_link (fun _ => answer) members tr)
    = option_map download_line
        (find (fun url => (Str.truthy url && answers_200 (answer url))%bool)
              (map Member.replay_link members)).
Proof.
  intros answer members tr. unfold set_record_link.
  pose proof (set_record_link_loop_find answer members
                (LogInfo "Looking for a valid record link" :: tr)) as L.
  destruct (set_record_link_loop _ members _) as [link tr1].
  cbn [fst] in L. subst link.
  destruct (find _ (map Member.replay_link members)) as [url|] eqn:F;
    [|reflexivity].
  apply find_some in F as [_ T]. apply andb_true_iff in T as [T _].
  now rewrite T.
Qed.

(* ================================================================= *)
(** ** A whole turn of the loop *)

(** X21: on a turn whose fetch succeeds and whose notifications the
    webhook accepts, the matches of the fetched snapshot that are new with
    respect to the baseline are notified, in order, and the fetched
    snapshot becomes the baseline whether or not any match was new; so a
    match that left the snapshot on one turn and is back on a later one is
    notified again. *)
Theorem tick_accepting :
  forall net_get cli webhook players (prev : list TeamMatch.t)
         (matches : list Match.t) (tr : trace),
    (forall tr' content embed, webhook tr' content embed = None) ->
    cli (Sleep 50 :: tr) players = CliMatches matches ->
    fst (tick net_get cli webhook players prev tr) = Ok (snapshot_of matches)
    /\ sent_contents (snd (tick net_get cli webhook players prev tr))
       = (sent_contents tr
          ++ map (fun n => generate_message
                             (fst (MessageFormatter_init net_get n players [])))
                 (filter (is_new prev) (snapshot_of matches)))%list.
Proof.
  intros net_get cli webhook players prev matches tr Hw Hc.
  unfold tick, get_lastmatches. rewrite Hc. fold (snapshot_of matches).
  destruct (check_results_accepting net_get webhook players prev
              (snapshot_of matches)
              (ClientFetch (CliMatches matches) :: Sleep 50 :: tr) Hw)
    as [R S].
  destruct (check_results net_get webhook players prev
              (snapshot_of matches) _) as [r tr1].
  cbn [fst snd] in R, S. subst r. cbn [fst snd]. split; [reflexivity|].
  unfold sent_contents in *. rewrite sends_cons, app_nil_r, S.
  now rewrite !sends_cons, !app_nil_r.
Qed.

Lemma tick_accepting_witness :
  sent_contents
    (snd (tick Sample.offline SampleC2.cli SampleC5.webhook SampleC2.roster
            [SampleC2.first] []))
  = ["Alice is victorious."].
Proof.
  refine (proj2 (tick_accepting Sample.offline SampleC2.cli SampleC5.webhook
                   SampleC2.roster [SampleC2.first] _ [] _ eq_refl)).
  reflexivity.
Defined.

(* ================================================================= *)
(** ** Instances *)

Lemma format_player_name_crown_witness :
  exists line, format_player_name Sample.alice = (line ++ " :crown:")%string.
Proof.
  refine (proj2 (format_player_name_crown Sample.alice) _).
  cbn. lia.
Defined.

Lemma clan_is_winner_iff_witness :
  MessageFormatter.is_victory
    (fst (MessageFormatter_init Sample.offline SampleC7.duel
            SampleC7.roster []))
  = true.
Proof.
  refine (proj2 (clan_is_winner_iff Sample.offline SampleC7.duel
                   SampleC7.roster []) (conj eq_refl _)).
  exists Sample.alice. split; [cbn; tauto | cbn; lia].
Defined.

(** The body of a match with three teams: the field that lists the teams
    is stored under the name "None", the links field under the empty
    name. *)
Example generate_embed_three_teams :
  map Embed.name
    (Embed.fields
       (generate_embed
          (fst (MessageFormatter_init Sample.offline
                  (Sample.game 46
                     [Sample.alice; Sample.carol;
                      Sample.member 30 "erin" 3 0 ""])
                  SampleC7.roster []))))
  = [Some "None"; Some ""].
Proof. reflexivity. Qed.
